(** * LocalLru scripts: the latency plotter and the price fetcher

  A shallow embedding of [scripts/plot_results.py] and
  [scripts/fetch_data.py].  Both scripts are straight-line glue over
  library calls, so the embedding has three layers:

  - [PosixPath]: the two [os.path] functions the fetcher uses;
  - [Pandas]: the table operations the plotter uses ([groupby],
    [describe]), over exact rationals;
  - [Plotter] and [Fetcher]: the scripts themselves, written in a small
    trace-and-halt monad so that they read like the Python text. *)

From Stdlib Require Import Ascii String QArith Qround Lqa Lia.
From stdpp Require Import gmap strings list sorting.

Local Open Scope string_scope.
Local Open Scope list_scope.

(** ** Processes: a state, an output trace and a way of stopping *)

Module Proc.

(** How a Python process stops before the end of the script. *)
Inductive halt :=
| SysExit (code : Z)          (* sys.exit(code) *)
| Uncaught (exn : string).    (* an exception nobody catches *)

Inductive result (A : Type) :=
| Ok (a : A)
| Halt (h : halt).
Arguments Ok {A} a.
Arguments Halt {A} h.

Section Monad.
Context {E St : Type}.

(** A run starts in a state of the outside world, leaves it in another,
    emits events of type [E], and then returns or halts.  What was done
    before a halt stays done. *)
Definition Run (A : Type) : Type := St * list E * result A.
Definition M (A : Type) : Type := St -> Run A.

Definition ret {A} (a : A) : M A := fun s => (s, [], Ok a).

Definition bind {A B} (m : M A) (f : A -> M B) : M B :=
  fun s =>
    match m s with
    | (s1, t1, Ok a) => let '(s2, t2, r) := f a s1 in (s2, t1 ++ t2, r)
    | (s1, t1, Halt h) => (s1, t1, Halt h)
    end.

Definition emit (e : E) : M unit := fun s => (s, [e], Ok tt).
Definition get : M St := fun s => (s, [], Ok s).
Definition put (s' : St) : M unit := fun _ => (s', [], Ok tt).
Definition sys_exit {A} (code : Z) : M A :=
  fun s => (s, [], Halt (SysExit code)).
Definition raise {A} (exn : string) : M A :=
  fun s => (s, [], Halt (Uncaught exn)).

(** A library call that raises [exn] where the embedding has [None]. *)
Definition or_raise {A} (exn : string) (o : option A) : M A :=
  match o with
  | Some a => ret a
  | None => raise exn
  end.

(** [for x in xs: body x] *)
Fixpoint for_each {A} (xs : list A) (body : A -> M unit) : M unit :=
  match xs with
  | [] => ret tt
  | x :: rest => bind (body x) (fun _ => for_each rest body)
  end.

Definition final {A} (r : Run A) : St := r.1.1.
Definition trace {A} (r : Run A) : list E := r.1.2.
Definition outcome {A} (r : Run A) : result A := r.2.

(** The status the shell sees: 0 at the end of the script, the argument
    of [sys.exit], and 1 after an uncaught exception. *)
Definition exit_code {A} (r : Run A) : Z :=
  match outcome r with
  | Ok _ => 0
  | Halt (SysExit c) => c
  | Halt (Uncaught _) => 1
  end.
End Monad.
Arguments Run E St A : clear implicits.
Arguments M E St A : clear implicits.

End Proc.

Notation "'let*' x := m 'in' k" := (Proc.bind m (fun x => k))
(at level 10, x binder, m at level 200, k at level 200).
Notation "m >> k" := (Proc.bind m (fun _ => k))
(at level 65, right associativity).

(** ** os.path *)

Module PosixPath.

Definition sep : ascii := "/"%char.

Definition startswith_sep (s : string) : bool :=
  match s with
  | String c _ => Ascii.eqb c sep
  | EmptyString => false
  end.

Fixpoint endswith_sep (s : string) : bool :=
  match s with
  | EmptyString => false
  | String c EmptyString => Ascii.eqb c sep
  | String _ rest => endswith_sep rest
  end.

Definition is_empty (s : string) : bool :=
  match s with EmptyString => true | _ => false end.

(** One round of the loop of [posixpath.join]. *)
Definition join_step (path b : string) : string :=
  if startswith_sep b then b
  else if is_empty path || endswith_sep path then path +:+ b
  else path +:+ String sep b.

(** [os.path.join(a, *p)] *)
Definition join (a : string) (p : list string) : string :=
  fold_left join_step p a.

Fixpoint has_sep (s : string) : bool :=
  match s with
  | EmptyString => false
  | String c rest => Ascii.eqb c sep || has_sep rest
  end.

(** [p[:p.rfind('/') + 1]] *)
Fixpoint head_to_last_sep (p : string) : string :=
  match p with
  | EmptyString => EmptyString
  | String c rest =>
      if has_sep p then String c (head_to_last_sep rest) else EmptyString
  end.

(** [s.rstrip('/')] *)
Fixpoint rstrip_sep (s : string) : string :=
  match s with
  | EmptyString => EmptyString
  | String c rest =>
      let rest' := rstrip_sep rest in
      if is_empty rest' && Ascii.eqb c sep then EmptyString
      else String c rest'
  end.

(** [os.path.dirname(p)]: the head is stripped of trailing slashes unless
    it consists of slashes only. *)
Definition dirname (p : string) : string :=
  let head := head_to_last_sep p in
  if is_empty (rstrip_sep head) then head else rstrip_sep head.

End PosixPath.

(** ** The part of pandas the plotter calls

  A table is what [pandas.read_csv] returns: named columns of cells.  A
  cell is a number, a text label or missing (an empty CSV field, NaN in
  pandas).  Numbers are exact rationals; every statistic below is the
  exact value of the quantity pandas computes in floating point, which
  the printed number only approximates.  The embedding covers tables
  typed as the data model has them ([label_or_missing],
  [number_or_missing] below): pandas groups a numeric [cache_type] column
  by number and holds a [latency_us] column with a text field as text,
  neither of which is modelled. *)

Module Pandas.

Inductive cell :=
| NA
| Num (x : Q)
| Str (s : string).

Definition Series := list cell.
Definition DataFrame := list (string * Series).

(** [df.columns] *)
Definition columns (df : DataFrame) : list string := map fst df.

(** [df[name]]; [None] stands for [KeyError]. *)
Fixpoint getitem (df : DataFrame) (name : string) : option Series :=
  match df with
  | [] => None
  | (n, s) :: rest => if String.eqb n name then Some s else getitem rest name
  end.

(** [set(names).issubset(cols)] *)
Definition issubset (names cols : list string) : bool :=
  forallb (fun n => existsb (String.eqb n) cols) names.

Definition as_label (c : cell) : option string :=
  match c with Str s => Some s | _ => None end.

Definition as_number (c : cell) : option Q :=
  match c with Num x => Some x | _ => None end.

Definition is_label (k : string) (c : cell) : bool :=
  match c with Str s => String.eqb s k | _ => false end.

(** *** groupby *)

Fixpoint insert_label (k : string) (l : list string) : list string :=
  match l with
  | [] => [k]
  | k' :: rest =>
      if String.leb k k' then k :: l else k' :: insert_label k rest
  end.

Definition sort_labels (l : list string) : list string :=
  foldr insert_label [] l.

(** The group keys: the distinct text labels of the key column, missing
    ones dropped ([dropna=True]), in sorted order ([sort=True]). *)
Definition group_keys (key : Series) : list string :=
  sort_labels (remove_dups (omap as_label key)).

(** The rows of [xs] selected by a boolean mask. *)
Fixpoint select {A} (mask : list bool) (xs : list A) : list A :=
  match mask, xs with
  | b :: mask', x :: xs' =>
      if b then x :: select mask' xs' else select mask' xs'
  | _, _ => []
  end.

Definition take_rows (mask : list bool) (df : DataFrame) : DataFrame :=
  map (fun '(n, s) => (n, select mask s)) df.

(** [df.groupby(by)]: one sub-table per key. *)
Definition groupby (df : DataFrame) (by_ : string)
  : option (list (string * DataFrame)) :=
  match getitem df by_ with
  | None => None
  | Some key =>
      Some (map (fun k => (k, take_rows (map (is_label k) key) df))
                (group_keys key))
  end.

(** *** describe *)

(** The values that are present ([dropna]). *)
Definition numbers (s : Series) : list Q := omap as_number s.

Fixpoint insert_value (x : Q) (l : list Q) : list Q :=
  match l with
  | [] => [x]
  | y :: rest =>
      if Qle_bool x y then x :: l else y :: insert_value x rest
  end.

Definition sort_values (l : list Q) : list Q := foldr insert_value [] l.

Definition total (l : list Q) : Q := foldr Qplus 0%Q l.

Definition len (l : list Q) : Q := inject_Z (Z.of_nat (length l)).

(** The exact mean; the number pandas prints is its rounding to a float. *)
Definition mean_of (l : list Q) : option Q :=
  match l with
  | [] => None
  | _ => Some (Qred (total l / len l))
  end.

(** The sample variance ([ddof=1]); pandas prints its square root as
    [std], and NaN for fewer than two values. *)
Definition var_of (l : list Q) : option Q :=
  match mean_of l with
  | Some m =>
      if (length l <=? 1)%nat then None
      else Some (Qred (total (map (fun x => (x - m) * (x - m))%Q l)
                       / (len l - 1)))
  | None => None
  end.

Definition qmin (x y : Q) : Q := if Qle_bool x y then x else y.
Definition qmax (x y : Q) : Q := if Qle_bool x y then y else x.

Definition min_of (l : list Q) : option Q :=
  match l with
  | [] => None
  | x :: rest => Some (Qred (foldr qmin x rest))
  end.

Definition max_of (l : list Q) : option Q :=
  match l with
  | [] => None
  | x :: rest => Some (Qred (foldr qmax x rest))
  end.

(** Linear interpolation between the two order statistics around the
    position [(n - 1) * q] (pandas' default, [interpolation='linear']). *)
Definition interpolate (sorted : list Q) (h : Q) : Q :=
  let lo := Z.to_nat (Qfloor h) in
  let frac := (h - inject_Z (Qfloor h))%Q in
  let a := nth lo sorted 0%Q in
  let b := nth (S lo) sorted a in
  (a + (b - a) * frac)%Q.

(** The position [h] lies in the list: [0 <= h <= n - 1]. *)
Definition in_range (l : list Q) (h : Q) : Prop :=
  (0 <= h /\ h <= len l - 1)%Q.

Definition quantile (l : list Q) (q : Q) : option Q :=
  match l with
  | [] => None
  | _ => Some (Qred (interpolate (sort_values l) ((len l - 1) * q)))
  end.

(** One row of the table [describe()] returns. *)
Record Summary := {
  count : nat;
  mean : option Q;
  var : option Q;      (* printed as std = sqrt var *)
  minimum : option Q;
  pct25 : option Q;
  pct50 : option Q;
  pct75 : option Q;
  maximum : option Q
}.

(** [series.describe()] for a numeric column; [None] is NaN. *)
Definition describe (s : Series) : Summary :=
  let xs := numbers s in
  {| count := length xs;
     mean := mean_of xs;
     var := var_of xs;
     minimum := min_of xs;
     pct25 := quantile xs (1 # 4);
     pct50 := quantile xs (1 # 2);
     pct75 := quantile xs (3 # 4);
     maximum := max_of xs |}.

(** [df.groupby(by)[column].describe()]: one row per group. *)
Definition groupby_describe (df : DataFrame) (by_ column : string)
  : option (list (string * Summary)) :=
  match groupby df by_ with
  | None => None
  | Some groups =>
      foldr (fun '(k, g) acc =>
               match getitem g column, acc with
               | Some s, Some rows => Some ((k, describe s) :: rows)
               | _, _ => None
               end)
            (Some []) groups
  end.

(** The types the data model gives the two columns: a cell of
    [cache_type] is a text label or missing, a cell of [latency_us] is a
    number or missing. *)
Definition label_or_missing (c : cell) : Prop :=
  match c with Num _ => False | _ => True end.

Definition number_or_missing (c : cell) : Prop :=
  match c with Str _ => False | _ => True end.

(** Comparison of two printed statistics: as for floating-point numbers,
    nothing compares with NaN. *)
Definition stat_le (a b : option Q) : Prop :=
  match a, b with
  | Some x, Some y => (x <= y)%Q
  | _, _ => False
  end.

End Pandas.

(** ** scripts/plot_results.py *)

Module Plotter.
Import Proc Pandas.

(** What the script does to the outside world, in order. *)
Inductive event :=
| Print (line : string)                        (* a line on stdout *)
| PrintTable (rows : list (string * Summary))  (* a printed describe() table *)
| ReadCsv (path : string)
| Figure (width height : nat)
| Hist (x : Series) (bins : nat) (alpha : Q) (label : string)
| Xlabel (s : string)
| Ylabel (s : string)
| Title (s : string)
| Suptitle (s : string)
| Legend
| Grid (on : bool)
| Show
| Boxplot (df : DataFrame) (column by_ : string).

(** A path that exists names either a file [read_csv] parses into a table
    (the cells are the values after parsing) or something it raises on (a
    directory, a malformed file). *)
Inductive node :=
| CsvFile (df : DataFrame)
| NotCsv.

(** The state of a run is the file system, which the script only reads. *)
Abbreviation FileSystem := (gmap string node).
Abbreviation P := (M event FileSystem).

Definition os_path_exists (path : string) : P bool :=
  let* fs := get in
  ret (match fs !! path with Some _ => true | None => false end).

Definition pd_read_csv (path : string) : P DataFrame :=
  let* fs := get in
  match fs !! path with
  | Some (CsvFile df) => emit (ReadCsv path) >> ret df
  | Some NotCsv => raise "ParserError"
  | None => raise "FileNotFoundError"
  end.

(** [plt.hist(x, bins=.., alpha=.., label=..)].  The bin range is taken
    from the values that are present; numpy's histogram raises ValueError
    ("autodetected range of [nan, nan] is not finite") when there is
    none.  That is the one cause of failure the embedding has: in floating
    point the call also fails on a range too narrow for 50 bins. *)
Definition plt_hist (x : Series) (bins : nat) (alpha : Q) (label : string)
  : P unit :=
  match numbers x with
  | [] => raise "ValueError"
  | _ => emit (Hist x bins alpha label)
  end.

(** [df.boxplot(column=.., by=..)]: one box per group of [by_]; pandas
    raises ValueError when there is no group at all. *)
Definition df_boxplot (df : DataFrame) (column by_ : string) : P unit :=
  match groupby df by_ with
  | None => raise "KeyError"
  | Some [] => raise "ValueError"
  | Some (_ :: _) => emit (Boxplot df column by_)
  end.

Definition newline : string := String (ascii_of_nat 10) EmptyString.

Definition plot_results (csv_file : string) : P unit :=
  let* found := os_path_exists csv_file in
  (if negb found then
     emit (Print ("CSV file " +:+ csv_file +:+ " not found.")) >>
     sys_exit 1
   else ret tt) >>
  let* df := pd_read_csv csv_file in
  (if negb (issubset ["cache_type"; "latency_us"] (columns df)) then
     emit (Print "CSV missing required columns: cache_type, latency_us") >>
     sys_exit 1
   else ret tt) >>
  let* grouped := or_raise "KeyError" (groupby df "cache_type") in
  emit (Figure 10 6) >>
  for_each grouped
    (fun '(name, group) =>
       let* x := or_raise "KeyError" (getitem group "latency_us") in
       plt_hist x 50 (6 # 10) name) >>
  emit (Xlabel "Latency (µs)") >>
  emit (Ylabel "Frequency") >>
  emit (Title "Cache Latency Distribution: LocalLRU vs LockCache") >>
  emit Legend >>
  emit (Grid true) >>
  emit Show >>
  emit (Figure 8 5) >>
  df_boxplot df "latency_us" "cache_type" >>
  emit (Ylabel "Latency (µs)") >>
  emit (Title "Latency Boxplot Comparison") >>
  emit (Suptitle EmptyString) >>
  emit (Grid true) >>
  emit Show >>
  emit (Print (newline +:+ "=== Summary Statistics ===")) >>
  let* table :=
    or_raise "KeyError" (groupby_describe df "cache_type" "latency_us") in
  emit (PrintTable table).

Definition usage : string :=
  "Usage: python scripts/plot_results.py <results.csv>".

(** The [__main__] block; [argv] is [sys.argv], script name first. *)
Definition main (argv : list string) : P unit :=
  (if (length argv <? 2)%nat then
     emit (Print usage) >>
     sys_exit 1
   else ret tt) >>
  let* csv_file := or_raise "IndexError" (argv !! 1%nat) in
  plot_results csv_file.

(** *** Vocabulary of the claims *)

Definition is_figure_event (e : event) : bool :=
  match e with
  | Print _ | PrintTable _ | ReadCsv _ => false
  | _ => true
  end.

Definition is_table_event (e : event) : bool :=
  match e with PrintTable _ => true | _ => false end.

Definition is_read_event (e : event) : bool :=
  match e with ReadCsv _ => true | _ => false end.

(** [needle] occurs in [s]. *)
Definition contains (s needle : string) : Prop :=
  exists before after, s = before +:+ needle +:+ after.

Definition printed_tables (t : list event)
  : list (list (string * Summary)) :=
  omap (fun e => match e with PrintTable rows => Some rows | _ => None end) t.

(** The rows of a table, restricted to the two columns the script reads:
    the cell of [cache_type] and the cell of [latency_us]. *)
Definition rows (key values : Series) : list (cell * cell) :=
  zip key values.

(** The row belongs to category [k]. *)
Definition in_group (k : string) (r : cell * cell) : bool :=
  is_label k r.1.

(** The latency of the row is not missing: the cell holds a number. *)
Definition has_value (r : cell * cell) : bool :=
  match r.2 with Num _ => true | _ => false end.

Definition count_rows (p : cell * cell -> bool) (rs : list (cell * cell))
  : nat :=
  length (List.filter p rs).

(** The latency cells of the rows of category [k]. *)
Definition group_values (key values : Series) (k : string) : Series :=
  select (map (is_label k) key) values.

(** The histogram the loop draws for category [k]. *)
Definition hist_of (key values : Series) (k : string) : event :=
  Hist (group_values key values k) 50 (6 # 10) k.

(** The events between the histograms and the call of [df.boxplot]. *)
Definition before_boxplot : list event :=
  [Xlabel "Latency (µs)"; Ylabel "Frequency";
   Title "Cache Latency Distribution: LocalLRU vs LockCache";
   Legend; Grid true; Show; Figure 8 5].

(** The events between the histograms and the table. *)
Definition decorations (df : DataFrame) : list event :=
  [Xlabel "Latency (µs)"; Ylabel "Frequency";
   Title "Cache Latency Distribution: LocalLRU vs LockCache";
   Legend; Grid true; Show; Figure 8 5;
   Boxplot df "latency_us" "cache_type";
   Ylabel "Latency (µs)"; Title "Latency Boxplot Comparison";
   Suptitle EmptyString; Grid true; Show;
   Print (newline +:+ "=== Summary Statistics ===")].

(** The table of line 44 in terms of the two columns. *)
Definition summary_table (key values : Series) : list (string * Summary) :=
  map (fun k => (k, describe (group_values key values k))) (group_keys key).

(** The ways a run of [plot_results] can go. *)
Inductive plot_run (fs : FileSystem) (csv_file : string)
  : Run event FileSystem unit -> Prop :=
| run_not_found :
    fs !! csv_file = None ->
    plot_run fs csv_file
      (fs, [Print ("CSV file " +:+ csv_file +:+ " not found.")],
       Halt (SysExit 1))
| run_unreadable :
    fs !! csv_file = Some NotCsv ->
    plot_run fs csv_file (fs, [], Halt (Uncaught "ParserError"))
| run_missing_columns df :
    fs !! csv_file = Some (CsvFile df) ->
    issubset ["cache_type"; "latency_us"] (columns df) = false ->
    plot_run fs csv_file
      (fs,
       [ReadCsv csv_file;
        Print "CSV missing required columns: cache_type, latency_us"],
       Halt (SysExit 1))
| run_hist_raises df key values plotted :
    fs !! csv_file = Some (CsvFile df) ->
    getitem df "cache_type" = Some key ->
    getitem df "latency_us" = Some values ->
    Exists (fun k => numbers (group_values key values k) = [])
           (group_keys key) ->
    plot_run fs csv_file
      (fs, ReadCsv csv_file :: Figure 10 6 :: map (hist_of key values) plotted,
       Halt (Uncaught "ValueError"))
| run_boxplot_raises df key values :
    fs !! csv_file = Some (CsvFile df) ->
    getitem df "cache_type" = Some key ->
    getitem df "latency_us" = Some values ->
    group_keys key = [] ->
    plot_run fs csv_file
      (fs, ReadCsv csv_file :: Figure 10 6 :: before_boxplot,
       Halt (Uncaught "ValueError"))
| run_complete df key values :
    fs !! csv_file = Some (CsvFile df) ->
    getitem df "cache_type" = Some key ->
    getitem df "latency_us" = Some values ->
    group_keys key <> [] ->
    Forall (fun k => numbers (group_values key values k) <> [])
           (group_keys key) ->
    plot_run fs csv_file
      (fs,
       ReadCsv csv_file :: Figure 10 6 ::
         map (hist_of key values) (group_keys key) ++
         decorations df ++ [PrintTable (summary_table key values)],
       Ok tt).

(** The table of the example in the specification. *)
Definition example_table : DataFrame :=
  [("cache_type", [Str "LocalLRU"; Str "LocalLRU"; Str "LockCache"]);
   ("latency_us", [Num (125 # 10); Num (130 # 10); Num (500 # 10)])].

(** A table in which one latency is missing. *)
Definition table_with_gap : DataFrame :=
  [("cache_type", [Str "LocalLRU"; Str "LocalLRU"]);
   ("latency_us", [Num (125 # 10); NA])].

(** The number of calls of [plt.show()]. *)
Definition shown (t : list event) : nat :=
  length (List.filter (fun e => match e with Show => true | _ => false end) t).

(** The histograms drawn, in order: data, bins, alpha, label. *)
Definition histograms (t : list event) : list (Series * nat * Q * string) :=
  omap (fun e => match e with
                 | Hist x bins alpha label => Some (x, bins, alpha, label)
                 | _ => None
                 end) t.

(** The row carries a category label. *)
Definition has_label (r : cell * cell) : bool :=
  match r.1 with Str _ => true | _ => false end.

(** The rows of a printed table agree with the histograms drawn before:
    same label, and the statistics are those of the plotted data. *)
Definition describes (h : Series * nat * Q * string)
    (row : string * Summary) : Prop :=
  h.2 = row.1 /\ h.1.1.2 = 50%nat /\ h.1.2 = (6 # 10)%Q /\
  row.2 = describe h.1.1.1.

(** A table in which the category LockCache has no latency at all. *)
Definition table_without_values : DataFrame :=
  [("cache_type", [Str "LockCache"; Str "LocalLRU"; Str "NoCache"]);
   ("latency_us", [NA; Num (125 # 10); Num (70 # 10)])].

(** A table whose rows are not grouped by category. *)
Definition table_without_order : DataFrame :=
  [("cache_type",
    [Str "NoCache"; Str "LockCache"; Str "LocalLRU"; Str "NoCache"]);
   ("latency_us",
    [Num (70 # 10); Num (500 # 10); Num (125 # 10); Num (90 # 10)])].

End Plotter.

(** ** scripts/fetch_data.py *)

Module Fetcher.
Import Proc PosixPath.

Definition symbols : list string := ["AAPL"; "MSFT"; "GOOG"; "TSLA"].

(** The world outside the script that it cannot change: the market-data
    provider and the permissions of the disk.  A call either returns or
    raises. *)
Record Env := {
  PriceFrame : Type;
  (* yf.download(sym, period=.., interval=..) *)
  yf_download : string -> string -> string -> option PriceFrame;
  (* the text data.to_csv writes *)
  csv_text : PriceFrame -> string;
  (* whether the file can be opened for writing *)
  can_write : string -> bool;
  (* whether the directory can be created *)
  can_mkdir : string -> bool
}.

(** The state of a run is the disk, by path name: a file is listed under
    the name it was written with, and two names of one file are not
    identified. *)
Record Disk := {
  dirs : gset string;
  files : gmap string string
}.

Inductive event :=
| Print (line : string).

Abbreviation F := (M event Disk).

(** [os.makedirs(path, exist_ok=..)] *)
Definition os_makedirs (env : Env) (path : string) (exist_ok : bool)
  : F unit :=
  let* d := get in
  if decide (path ∈ dirs d) then
    if exist_ok then ret tt else raise "FileExistsError"
  else if can_mkdir env path then
    put {| dirs := {[path]} ∪ dirs d; files := files d |}
  else raise "OSError".

(** [data.to_csv(filepath)]: the file is created or replaced. *)
Definition to_csv (env : Env) (data : PriceFrame env) (filepath : string)
  : F unit :=
  let* d := get in
  if can_write env filepath then
    put {| dirs := dirs d;
           files := <[filepath := csv_text env data]> (files d) |}
  else raise "OSError".

(** [base_path]: one level up from the directory of the script, then
    [data]. *)
Definition base_path (file : string) : string :=
  join (dirname file) [".."; "data"].

(** [filepath] in the loop. *)
Definition filepath (base : string) (sym : string) : string :=
  join base [sym +:+ ".csv"].

(** The body of the loop over [symbols]. *)
Definition fetch (env : Env) (base sym : string) : F unit :=
  let* data := or_raise "DownloadError" (yf_download env sym "5d" "1m") in
  to_csv env data (filepath base sym) >>
  emit (Print ("Saved " +:+ filepath base sym)).

(** The script; [file] is [__file__]. *)
Definition script (env : Env) (file : string) : F unit :=
  os_makedirs env (base_path file) true >>
  for_each symbols (fetch env (base_path file)).

(** *** Vocabulary of the claims *)

(** The confirmation line for a symbol. *)
Definition saved (base sym : string) : event :=
  Print ("Saved " +:+ filepath base sym).

(** The iteration for [sym] goes through: the download returns and the
    file can be written. *)
Definition fetchable (env : Env) (base sym : string) : bool :=
  match yf_download env sym "5d" "1m" with
  | Some _ => can_write env (filepath base sym)
  | None => false
  end.

(** The disk after the file of [sym] has been written. *)
Definition store (env : Env) (base : string) (d : Disk) (sym : string)
  : Disk :=
  match yf_download env sym "5d" "1m" with
  | Some data =>
      {| dirs := dirs d;
         files := <[filepath base sym := csv_text env data]> (files d) |}
  | None => d
  end.

Definition stored (env : Env) (base : string) (syms : list string)
    (d : Disk) : Disk :=
  foldl (store env base) d syms.

(** The disk once the output directory is there. *)
Definition with_dir (path : string) (d : Disk) : Disk :=
  if decide (path ∈ dirs d) then d
  else {| dirs := {[path]} ∪ dirs d; files := files d |}.

(** A provider that knows every symbol but [MSFT], over a disk on which
    everything may be written. *)
Definition env_without_msft : Env :=
  {| PriceFrame := string;
     yf_download := fun sym _ _ =>
       if String.eqb sym "MSFT" then None else Some ("prices of " +:+ sym);
     csv_text := fun data => data;
     can_write := fun _ => true;
     can_mkdir := fun _ => true |}.

(** A provider that knows every symbol. *)
Definition env_all : Env :=
  {| PriceFrame := string;
     yf_download := fun sym _ _ => Some ("prices of " +:+ sym);
     csv_text := fun data => data;
     can_write := fun _ => true;
     can_mkdir := fun _ => true |}.

Definition empty_disk : Disk := {| dirs := ∅; files := ∅ |}.

End Fetcher.

(** * Properties *)

Import Proc Pandas.

(** ** The monad *)

Section MonadLaws.
Context {E St : Type}.
Implicit Types s : St.

Lemma bind_ok {A B} (m : M E St A) (f : A -> M E St B) s s1 t1 a :
  m s = (s1, t1, Ok a) ->
  bind m f s = (final (f a s1), t1 ++ trace (f a s1), outcome (f a s1)).
Proof.
  intros Hm. unfold bind. rewrite Hm.
  destruct (f a s1) as [[s2 t2] r]. reflexivity.
Qed.

Lemma bind_halt {A B} (m : M E St A) (f : A -> M E St B) s s1 t1 h :
  m s = (s1, t1, Halt h) -> bind m f s = (s1, t1, Halt h).
Proof. intros Hm. unfold bind. now rewrite Hm. Qed.

Lemma bind_ret {A B} (a : A) (f : A -> M E St B) s :
  bind (ret a) f s = f a s.
Proof.
  unfold bind, ret. destruct (f a s) as [[s2 t2] r]. reflexivity.
Qed.

Lemma bind_emit {B} (e : E) (f : unit -> M E St B) s :
  bind (emit e) f s = (final (f tt s), e :: trace (f tt s), outcome (f tt s)).
Proof. apply (bind_ok (emit e) f s s [e] tt). reflexivity. Qed.

Lemma bind_pure {A B} (m : M E St A) (f : A -> M E St B) s a :
  m s = (s, [], Ok a) -> bind m f s = f a s.
Proof.
  intros Hm. unfold bind. rewrite Hm.
  destruct (f a s) as [[s2 t2] r]. reflexivity.
Qed.

Lemma bind_pure_state {A B} (m : M E St A) (f : A -> M E St B) s s1 a :
  m s = (s1, [], Ok a) -> bind m f s = f a s1.
Proof.
  intros Hm. unfold bind. rewrite Hm.
  destruct (f a s1) as [[s2 t2] r]. reflexivity.
Qed.

Lemma bind_run {A B} (m : M E St A) (f : A -> M E St B) s s1 t1 a s2 t2 r :
  m s = (s1, t1, Ok a) -> f a s1 = (s2, t2, r) ->
  bind m f s = (s2, t1 ++ t2, r).
Proof. intros Hm Hf. unfold bind. now rewrite Hm, Hf. Qed.

Lemma bind_cong {A B} (m m' : M E St A) (f f' : A -> M E St B) s :
  m s = m' s -> (forall a s', f a s' = f' a s') ->
  bind m f s = bind m' f' s.
Proof.
  intros Hm Hf. unfold bind. rewrite Hm.
  destruct (m' s) as [[s1 t1] [a|h]]; [|reflexivity].
  now rewrite Hf.
Qed.

Lemma bind_ok_cong {A A' B} (m : M E St A) (m' : M E St A')
      (f : A -> M E St B) (f' : A' -> M E St B) s s1 t1 a a' :
  m s = (s1, t1, Ok a) -> m' s = (s1, t1, Ok a') ->
  f a s1 = f' a' s1 ->
  bind m f s = bind m' f' s.
Proof. intros Hm Hm' Hf. unfold bind. now rewrite Hm, Hm', Hf. Qed.

Lemma for_each_map {A B} (g : A -> B) (body : B -> M E St unit) xs s :
  for_each (map g xs) body s = for_each xs (fun x => body (g x)) s.
Proof.
  revert s. induction xs as [|x xs IH]; intros s; [reflexivity|].
  cbn [map for_each]. unfold bind.
  destruct (body (g x) s) as [[s1 t1] [[]|h]]; [|reflexivity].
  now rewrite IH.
Qed.

Lemma for_each_ext {A} (body1 body2 : A -> M E St unit) xs s :
  (forall x s', body1 x s' = body2 x s') ->
  for_each xs body1 s = for_each xs body2 s.
Proof.
  intros Hb. revert s. induction xs as [|x xs IH]; intros s; [reflexivity|].
  cbn [for_each]. unfold bind. rewrite Hb.
  destruct (body2 x s) as [[s1 t1] [[]|h]]; [|reflexivity].
  now rewrite IH.
Qed.
End MonadLaws.

(** ** Order statistics *)

Section Statistics.
Local Open Scope Q_scope.
Implicit Types (x y h : Q) (l : list Q).

Lemma Qle_bool_false x y : Qle_bool x y = false -> y <= x.
Proof.
  intros Hb. apply Qlt_le_weak, Qnot_le_lt. intros Hle.
  apply Qle_bool_iff in Hle. congruence.
Qed.

Lemma insert_value_perm x l : Permutation (insert_value x l) (x :: l).
Proof.
  induction l as [|y l IH]; cbn [insert_value]; [reflexivity|].
  destruct (Qle_bool x y); [reflexivity|].
  rewrite IH. apply perm_swap.
Qed.

Lemma sort_values_perm l : Permutation (sort_values l) l.
Proof.
  induction l as [|x l IH]; [reflexivity|].
  cbn [sort_values foldr]. fold (sort_values l).
  rewrite insert_value_perm. now rewrite IH.
Qed.

Lemma insert_value_sorted x l :
  StronglySorted Qle l -> StronglySorted Qle (insert_value x l).
Proof.
  induction 1 as [|y l Hs IH Hy]; cbn [insert_value].
  - repeat constructor.
  - destruct (Qle_bool x y) eqn:Hxy.
    + apply Qle_bool_iff in Hxy. constructor; [now constructor|].
      constructor; [exact Hxy|].
      eapply Forall_impl; [exact Hy|]. intros z Hz. cbn beta in *.
      now apply Qle_trans with y.
    + apply Qle_bool_false in Hxy. constructor; [exact IH|].
      rewrite (insert_value_perm x l). now constructor.
Qed.

Lemma sort_values_sorted l : StronglySorted Qle (sort_values l).
Proof.
  induction l as [|x l IH]; [constructor|].
  cbn [sort_values foldr]. now apply insert_value_sorted.
Qed.

Lemma sorted_nth l (i j : nat) d d' :
  StronglySorted Qle l -> (i <= j < length l)%nat ->
  nth i l d <= nth j l d'.
Proof.
  intros Hs. revert i j. induction Hs as [|x l Hs IH Hx]; intros i j Hij.
  - cbn in Hij. lia.
  - destruct i as [|i], j as [|j]; cbn [nth length] in *.
    + apply Qle_refl.
    + rewrite Forall_forall in Hx. apply Hx.
      apply list_elem_of_In, nth_In. lia.
    + lia.
    + apply IH. lia.
Qed.

Lemma floor_in_range l h :
  in_range l h ->
  (0 <= Qfloor h)%Z /\ (Z.to_nat (Qfloor h) < length l)%nat.
Proof.
  intros [H0 Hn].
  assert (Hf0 : (0 <= Qfloor h)%Z).
  { change 0%Z with (Qfloor 0). now apply Qfloor_resp_le. }
  split; [exact Hf0|].
  assert (Hfn : (Qfloor h <= Z.of_nat (length l) - 1)%Z).
  { rewrite <- (Qfloor_Z (Z.of_nat (length l) - 1)).
    apply Qfloor_resp_le. unfold len in Hn. unfold Z.sub.
    rewrite inject_Z_plus, inject_Z_opp. exact Hn. }
  lia.
Qed.

Lemma frac_bounds h :
  0 <= h - inject_Z (Qfloor h) /\ h - inject_Z (Qfloor h) < 1.
Proof.
  pose proof (Qfloor_le h) as Hle. pose proof (Qlt_floor h) as Hlt.
  rewrite inject_Z_plus in Hlt. change (inject_Z 1) with 1 in Hlt.
  split; lra.
Qed.

Lemma upper_neighbour l (i : nat) :
  StronglySorted Qle l -> (i < length l)%nat ->
  nth i l 0 <= nth (S i) l (nth i l 0) /\
  In (nth (S i) l (nth i l 0)) l.
Proof.
  intros Hs Hi. destruct (decide (S i < length l)%nat) as [Hlt|Hge].
  - split; [apply sorted_nth; [exact Hs|lia]|now apply nth_In].
  - rewrite (nth_overflow l (nth i l 0)) by lia.
    split; [apply Qle_refl|now apply nth_In].
Qed.

Lemma interpolate_bounds l h :
  StronglySorted Qle l -> in_range l h ->
  nth (Z.to_nat (Qfloor h)) l 0 <= interpolate l h /\
  interpolate l h <=
    nth (S (Z.to_nat (Qfloor h))) l (nth (Z.to_nat (Qfloor h)) l 0).
Proof.
  intros Hs Hr. destruct (floor_in_range l h Hr) as [_ Hlo].
  destruct (upper_neighbour l _ Hs Hlo) as [Hab _].
  destruct (frac_bounds h) as [Hf0 Hf1].
  unfold interpolate.
  set (a := nth (Z.to_nat (Qfloor h)) l 0) in *.
  set (b := nth (S (Z.to_nat (Qfloor h))) l a) in *.
  set (f := h - inject_Z (Qfloor h)) in *.
  split; nra.
Qed.

Lemma interpolate_mono l h1 h2 :
  StronglySorted Qle l -> in_range l h1 -> in_range l h2 -> h1 <= h2 ->
  interpolate l h1 <= interpolate l h2.
Proof.
  intros Hs Hr1 Hr2 Hle.
  destruct (floor_in_range l h1 Hr1) as [Hz1 Hlo1].
  destruct (floor_in_range l h2 Hr2) as [Hz2 Hlo2].
  pose proof (Qfloor_resp_le _ _ Hle) as Hfl.
  destruct (decide (Qfloor h1 = Qfloor h2)) as [Heq|Hne].
  - destruct (upper_neighbour l _ Hs Hlo1) as [Hab _].
    destruct (frac_bounds h1) as [Hf0 Hf1].
    unfold interpolate. rewrite <- Heq.
    set (a := nth (Z.to_nat (Qfloor h1)) l 0) in *.
    set (b := nth (S (Z.to_nat (Qfloor h1))) l a) in *.
    nra.
  - destruct (interpolate_bounds l h1 Hs Hr1) as [_ Hup].
    destruct (interpolate_bounds l h2 Hs Hr2) as [Hlow _].
    eapply Qle_trans; [exact Hup|]. eapply Qle_trans; [|exact Hlow].
    apply sorted_nth; [exact Hs|lia].
Qed.

Lemma interpolate_in_list l h :
  StronglySorted Qle l -> in_range l h ->
  exists a b, In a l /\ In b l /\ a <= interpolate l h <= b.
Proof.
  intros Hs Hr. destruct (floor_in_range l h Hr) as [_ Hlo].
  destruct (upper_neighbour l _ Hs Hlo) as [_ Hin].
  destruct (interpolate_bounds l h Hs Hr) as [Hlow Hup].
  eexists _, _. split; [apply nth_In, Hlo|]. split; [exact Hin|].
  split; [exact Hlow|exact Hup].
Qed.

Lemma foldr_qmin_le x l y : In y (x :: l) -> foldr qmin x l <= y.
Proof.
  induction l as [|z l IH]; cbn [foldr In].
  - intros [->|[]]. apply Qle_refl.
  - unfold qmin at 1. intros Hy.
    destruct (Qle_bool z (foldr qmin x l)) eqn:Hz.
    + apply Qle_bool_iff in Hz.
      destruct Hy as [->|[->|Hy]].
      * eapply Qle_trans; [exact Hz|]. apply IH. now left.
      * apply Qle_refl.
      * eapply Qle_trans; [exact Hz|]. apply IH. now right.
    + apply Qle_bool_false in Hz.
      destruct Hy as [->|[->|Hy]].
      * apply IH. now left.
      * exact Hz.
      * apply IH. now right.
Qed.

Lemma foldr_qmax_ge x l y : In y (x :: l) -> y <= foldr qmax x l.
Proof.
  induction l as [|z l IH]; cbn [foldr In].
  - intros [->|[]]. apply Qle_refl.
  - unfold qmax at 1. intros Hy.
    destruct (Qle_bool z (foldr qmax x l)) eqn:Hz.
    + apply Qle_bool_iff in Hz.
      destruct Hy as [->|[->|Hy]].
      * apply IH. now left.
      * exact Hz.
      * apply IH. now right.
    + apply Qle_bool_false in Hz.
      destruct Hy as [->|[->|Hy]].
      * eapply Qle_trans; [|exact Hz]. apply IH. now left.
      * apply Qle_refl.
      * eapply Qle_trans; [|exact Hz]. apply IH. now right.
Qed.

Lemma len_sort_values l : len (sort_values l) = len l.
Proof. unfold len. now rewrite (Permutation_length (sort_values_perm l)). Qed.

Lemma len_positive l : l <> [] -> 1 <= len l.
Proof.
  intros Hl. unfold len. change 1 with (inject_Z 1). rewrite <- Zle_Qle.
  destruct l; [congruence|]. cbn [length]. lia.
Qed.

Lemma quantile_position l q :
  l <> [] -> 0 <= q <= 1 -> in_range (sort_values l) ((len l - 1) * q).
Proof.
  intros Hl [Hq0 Hq1]. pose proof (len_positive l Hl) as Hn.
  unfold in_range. rewrite len_sort_values. split; nra.
Qed.

Lemma quantile_some l q :
  l <> [] ->
  quantile l q =
    Some (Qred (interpolate (sort_values l) ((len l - 1) * q))).
Proof. destruct l; [congruence|reflexivity]. Qed.

Lemma quantile_mono l q1 q2 :
  l <> [] -> 0 <= q1 -> q1 <= q2 -> q2 <= 1 ->
  stat_le (quantile l q1) (quantile l q2).
Proof.
  intros Hl H0 H12 H1. rewrite !quantile_some by exact Hl.
  cbn [stat_le]. rewrite !Qred_correct.
  pose proof (len_positive l Hl) as Hn.
  apply interpolate_mono.
  - apply sort_values_sorted.
  - apply quantile_position; [exact Hl|split; lra].
  - apply quantile_position; [exact Hl|split; lra].
  - nra.
Qed.

Lemma min_le_quantile l q :
  l <> [] -> 0 <= q <= 1 -> stat_le (min_of l) (quantile l q).
Proof.
  intros Hl Hq. rewrite quantile_some by exact Hl.
  destruct (interpolate_in_list (sort_values l) _ (sort_values_sorted l)
              (quantile_position l q Hl Hq)) as (a & b & Ha & _ & Hlow & _).
  apply (Permutation_in _ (sort_values_perm l)) in Ha.
  destruct l as [|x l]; [congruence|].
  cbn [min_of stat_le]. rewrite !Qred_correct.
  eapply Qle_trans; [|exact Hlow]. now apply foldr_qmin_le.
Qed.

Lemma quantile_le_max l q :
  l <> [] -> 0 <= q <= 1 -> stat_le (quantile l q) (max_of l).
Proof.
  intros Hl Hq. rewrite quantile_some by exact Hl.
  destruct (interpolate_in_list (sort_values l) _ (sort_values_sorted l)
              (quantile_position l q Hl Hq)) as (a & b & _ & Hb & _ & Hup).
  apply (Permutation_in _ (sort_values_perm l)) in Hb.
  destruct l as [|x l]; [congruence|].
  cbn [max_of stat_le]. rewrite !Qred_correct.
  eapply Qle_trans; [exact Hup|]. now apply foldr_qmax_ge.
Qed.

(** The five-number summary of a column with at least one value is
    ordered. *)
Lemma describe_ordered (s : Series) :
  numbers s <> [] ->
  stat_le (minimum (describe s)) (pct25 (describe s)) /\
  stat_le (pct25 (describe s)) (pct50 (describe s)) /\
  stat_le (pct50 (describe s)) (pct75 (describe s)) /\
  stat_le (pct75 (describe s)) (maximum (describe s)).
Proof.
  intros Hs. cbn [describe minimum pct25 pct50 pct75 maximum].
  repeat split.
  - apply min_le_quantile; [exact Hs|split; discriminate].
  - apply quantile_mono; [exact Hs|discriminate..].
  - apply quantile_mono; [exact Hs|discriminate..].
  - apply quantile_le_max; [exact Hs|split; discriminate].
Qed.

End Statistics.

(** ** Groups *)

Section Groups.
Import Plotter.
Implicit Types (key values : Series) (k : string).

Lemma insert_label_perm k (l : list string) :
  Permutation (insert_label k l) (k :: l).
Proof.
  induction l as [|k' l IH]; cbn [insert_label]; [reflexivity|].
  destruct (String.leb k k'); [reflexivity|].
  rewrite IH. apply perm_swap.
Qed.

Lemma sort_labels_perm (l : list string) : Permutation (sort_labels l) l.
Proof.
  induction l as [|k l IH]; [reflexivity|].
  cbn [sort_labels foldr]. fold (sort_labels l).
  rewrite insert_label_perm. now rewrite IH.
Qed.

Lemma group_keys_NoDup key : NoDup (group_keys key).
Proof.
  unfold group_keys. rewrite sort_labels_perm. apply NoDup_remove_dups.
Qed.

Lemma elem_of_group_keys key k : k ∈ group_keys key <-> Str k ∈ key.
Proof.
  unfold group_keys. rewrite sort_labels_perm, elem_of_remove_dups.
  rewrite list_elem_of_omap. split.
  - intros (c & Hc & Hl). destruct c; try discriminate.
    cbn in Hl. now simplify_eq.
  - intros Hk. now exists (Str k).
Qed.


Lemma numbers_cons (v : cell) (s : Series) :
  numbers (v :: s) =
  match as_number v with Some x => x :: numbers s | None => numbers s end.
Proof. reflexivity. Qed.

Lemma group_count key values k :
  length (numbers (group_values key values k)) =
  count_rows (fun r => in_group k r && has_value r) (rows key values).
Proof.
  unfold group_values, count_rows, rows. revert values.
  induction key as [|c key IH]; intros [|v values]; try reflexivity.
  cbn [map select zip zip_with List.filter].
  unfold in_group at 1, has_value at 1. cbn [fst snd].
  destruct (is_label k c); cbn [andb]; [|apply IH].
  rewrite numbers_cons.
  destruct v; cbn [as_number length]; rewrite IH; reflexivity.
Qed.


End Groups.

(** ** The runs of the plotter *)

Section PlotterRuns.
Import Plotter.
Implicit Types (fs : gmap string node) (df : DataFrame).

Lemma contains_intro before needle after :
  contains (before +:+ needle +:+ after) needle.
Proof. now exists before, after. Qed.

Lemma main_calls_plot_results script csv_file rest fs :
  main (script :: csv_file :: rest) fs = plot_results csv_file fs.
Proof.
  unfold main. cbn [length Nat.ltb Nat.leb lookup list_lookup or_raise].
  now rewrite !bind_ret.
Qed.

Lemma plot_results_not_found fs csv_file :
  fs !! csv_file = None ->
  plot_results csv_file fs =
    (fs, [Print ("CSV file " +:+ csv_file +:+ " not found.")],
     Halt (SysExit 1)).
Proof.
  intros Hfs. unfold plot_results, os_path_exists, bind, get, ret, emit,
    sys_exit. rewrite Hfs. reflexivity.
Qed.

Lemma has_column df name :
  existsb (String.eqb name) (columns df) = bool_decide (is_Some (getitem df name)).
Proof.
  induction df as [|[n c] df IH]; cbn [columns map existsb getitem].
  - symmetry. apply bool_decide_eq_false. now intros [? ?].
  - cbn [fst]. fold (columns df). rewrite (String.eqb_sym name n).
    destruct (String.eqb n name); cbn [orb]; [|exact IH].
    symmetry. apply bool_decide_eq_true. now eexists.
Qed.

Lemma required_columns df :
  issubset ["cache_type"; "latency_us"] (columns df) = true <->
  is_Some (getitem df "cache_type") /\ is_Some (getitem df "latency_us").
Proof.
  unfold issubset. cbn [forallb]. rewrite !has_column, andb_true_r.
  rewrite andb_true_iff, !bool_decide_eq_true. reflexivity.
Qed.

Lemma getitem_take_rows mask df name :
  getitem (take_rows mask df) name = select mask <$> getitem df name.
Proof.
  induction df as [|[n c] df IH]; [reflexivity|].
  cbn [take_rows map getitem]. destruct (String.eqb n name); [reflexivity|].
  exact IH.
Qed.

Lemma groupby_describe_rows df key values :
  getitem df "cache_type" = Some key ->
  getitem df "latency_us" = Some values ->
  groupby_describe df "cache_type" "latency_us" =
    Some (map (fun k => (k, describe (group_values key values k)))
              (group_keys key)).
Proof.
  intros Hk Hv. unfold groupby_describe, groupby. rewrite Hk.
  induction (group_keys key) as [|k ks IH]; [reflexivity|].
  cbn [map foldr]. rewrite IH, getitem_take_rows, Hv. reflexivity.
Qed.

(** With the file found and both columns present, the run is the
    plotting pipeline over the two columns. *)
Lemma plot_results_loaded fs csv_file df key values :
  fs !! csv_file = Some (CsvFile df) ->
  getitem df "cache_type" = Some key ->
  getitem df "latency_us" = Some values ->
  plot_results csv_file fs =
    (emit (ReadCsv csv_file) >>
     emit (Figure 10 6) >>
     for_each (group_keys key)
       (fun k => plt_hist (group_values key values k) 50 (6 # 10) k) >>
     emit (Xlabel "Latency (µs)") >>
     emit (Ylabel "Frequency") >>
     emit (Title "Cache Latency Distribution: LocalLRU vs LockCache") >>
     emit Legend >>
     emit (Grid true) >>
     emit Show >>
     emit (Figure 8 5) >>
     df_boxplot df "latency_us" "cache_type" >>
     emit (Ylabel "Latency (µs)") >>
     emit (Title "Latency Boxplot Comparison") >>
     emit (Suptitle EmptyString) >>
     emit (Grid true) >>
     emit Show >>
     emit (Print (newline +:+ "=== Summary Statistics ===")) >>
     emit (PrintTable
             (map (fun k => (k, describe (group_values key values k)))
                  (group_keys key)))) fs.
Proof.
  intros Hfs Hk Hv.
  assert (Hsub : issubset ["cache_type"; "latency_us"] (columns df) = true).
  { apply required_columns. rewrite Hk, Hv. split; now eexists. }
  unfold plot_results.
  rewrite (bind_pure (os_path_exists csv_file) _ fs true)
    by (unfold os_path_exists, bind, get, ret; now rewrite Hfs).
  cbn [negb]. rewrite bind_ret.
  apply (bind_ok_cong _ _ _ _ fs fs [ReadCsv csv_file] df tt);
    [unfold pd_read_csv, bind, get, ret, emit; now rewrite Hfs
    |reflexivity|].
  all: rewrite Hsub; cbn [negb]; rewrite bind_ret.
  all: unfold groupby; rewrite Hk; cbn [or_raise]; rewrite bind_ret.
  all: apply bind_cong; [reflexivity|intros _ s1].
  all: apply bind_cong;
    [rewrite for_each_map; apply for_each_ext; intros k s2;
     rewrite getitem_take_rows, Hv; cbn [fmap option_fmap option_map or_raise];
     now rewrite bind_ret |intros _ s2].
  all: do 14 (apply bind_cong; [reflexivity|intros _ ?]).
  all: rewrite (groupby_describe_rows df key values Hk Hv); cbn [or_raise].
  all: now rewrite bind_ret.
Qed.


Lemma hist_loop_ok key values keys fs :
  Forall (fun k => numbers (group_values key values k) <> []) keys ->
  for_each keys
    (fun k => plt_hist (group_values key values k) 50 (6 # 10) k) fs =
    (fs, map (hist_of key values) keys, Ok tt).
Proof.
  induction 1 as [|k ks Hk _ IH]; [reflexivity|].
  cbn [for_each map].
  rewrite (bind_ok _ _ fs fs [hist_of key values k] tt).
  - rewrite IH. reflexivity.
  - unfold plt_hist. destruct (numbers (group_values key values k));
      [contradiction|reflexivity].
Qed.

Lemma hist_loop_raises key values keys fs :
  Exists (fun k => numbers (group_values key values k) = []) keys ->
  exists plotted,
    for_each keys
      (fun k => plt_hist (group_values key values k) 50 (6 # 10) k) fs =
      (fs, map (hist_of key values) plotted, Halt (Uncaught "ValueError")).
Proof.
  induction keys as [|k ks IH]; intros Hex; [inversion Hex|].
  cbn [for_each].
  destruct (numbers (group_values key values k)) as [|x xs] eqn:Hn.
  - exists []. apply bind_halt. unfold plt_hist. now rewrite Hn.
  - assert (Hks : Exists (fun k => numbers (group_values key values k) = []) ks).
    { inversion Hex as [? ? H0|]; subst; [congruence|assumption]. }
    destruct (IH Hks) as [plotted Hrun]. exists (k :: plotted).
    rewrite (bind_ok _ _ fs fs [hist_of key values k] tt).
    + rewrite Hrun. reflexivity.
    + unfold plt_hist. now rewrite Hn.
Qed.

Lemma df_boxplot_draws df key column fs :
  getitem df "cache_type" = Some key ->
  group_keys key <> [] ->
  df_boxplot df column "cache_type" fs =
    (fs, [Boxplot df column "cache_type"], Ok tt).
Proof.
  intros Hk Hne. unfold df_boxplot, groupby. rewrite Hk.
  destruct (group_keys key); [congruence|reflexivity].
Qed.

Lemma df_boxplot_raises df key column fs :
  getitem df "cache_type" = Some key ->
  group_keys key = [] ->
  df_boxplot df column "cache_type" fs = (fs, [], Halt (Uncaught "ValueError")).
Proof.
  intros Hk Hnil. unfold df_boxplot, groupby. now rewrite Hk, Hnil.
Qed.

Lemma plot_results_prints fs csv_file df key values :
  fs !! csv_file = Some (CsvFile df) ->
  getitem df "cache_type" = Some key ->
  getitem df "latency_us" = Some values ->
  group_keys key <> [] ->
  Forall (fun k => numbers (group_values key values k) <> [])
         (group_keys key) ->
  plot_results csv_file fs =
    (fs,
     ReadCsv csv_file :: Figure 10 6 ::
       map (hist_of key values) (group_keys key) ++
       decorations df ++ [PrintTable (summary_table key values)],
     Ok tt).
Proof.
  intros Hfs Hk Hv Hne Hall.
  rewrite (plot_results_loaded fs csv_file df key values Hfs Hk Hv).
  etransitivity.
  - do 2 (eapply bind_run; [reflexivity|]).
    eapply bind_run; [exact (hist_loop_ok key values _ fs Hall)|].
    do 7 (eapply bind_run; [reflexivity|]).
    eapply bind_run; [exact (df_boxplot_draws df key _ fs Hk Hne)|].
    reflexivity.
  - reflexivity.
Qed.

Lemma plot_results_boxplot_raises fs csv_file df key values :
  fs !! csv_file = Some (CsvFile df) ->
  getitem df "cache_type" = Some key ->
  getitem df "latency_us" = Some values ->
  group_keys key = [] ->
  plot_results csv_file fs =
    (fs, ReadCsv csv_file :: Figure 10 6 :: before_boxplot,
     Halt (Uncaught "ValueError")).
Proof.
  intros Hfs Hk Hv Hnil.
  rewrite (plot_results_loaded fs csv_file df key values Hfs Hk Hv).
  rewrite Hnil. etransitivity.
  - do 10 (eapply bind_run; [reflexivity|]).
    apply bind_halt. exact (df_boxplot_raises df key _ fs Hk Hnil).
  - reflexivity.
Qed.

Lemma plot_results_hist_raises fs csv_file df key values :
  fs !! csv_file = Some (CsvFile df) ->
  getitem df "cache_type" = Some key ->
  getitem df "latency_us" = Some values ->
  Exists (fun k => numbers (group_values key values k) = [])
         (group_keys key) ->
  exists plotted,
    plot_results csv_file fs =
      (fs, ReadCsv csv_file :: Figure 10 6 :: map (hist_of key values) plotted,
       Halt (Uncaught "ValueError")).
Proof.
  intros Hfs Hk Hv Hex.
  destruct (hist_loop_raises key values _ fs Hex) as [plotted Hrun].
  exists plotted.
  rewrite (plot_results_loaded fs csv_file df key values Hfs Hk Hv).
  rewrite !bind_emit. rewrite (bind_halt _ _ fs fs _ _ Hrun).
  reflexivity.
Qed.

Lemma plot_results_missing_columns fs csv_file df :
  fs !! csv_file = Some (CsvFile df) ->
  issubset ["cache_type"; "latency_us"] (columns df) = false ->
  plot_results csv_file fs =
    (fs,
     [ReadCsv csv_file;
      Print "CSV missing required columns: cache_type, latency_us"],
     Halt (SysExit 1)).
Proof.
  intros Hfs Hsub. unfold plot_results.
  rewrite (bind_pure (os_path_exists csv_file) _ fs true)
    by (unfold os_path_exists, bind, get, ret; now rewrite Hfs).
  cbn [negb]. rewrite bind_ret.
  rewrite (bind_ok (pd_read_csv csv_file) _ fs fs [ReadCsv csv_file] df)
    by (unfold pd_read_csv, bind, get, ret, emit; now rewrite Hfs).
  rewrite Hsub. reflexivity.
Qed.

Lemma plot_results_unreadable fs csv_file :
  fs !! csv_file = Some NotCsv ->
  plot_results csv_file fs = (fs, [], Halt (Uncaught "ParserError")).
Proof.
  intros Hfs. unfold plot_results.
  rewrite (bind_pure (os_path_exists csv_file) _ fs true)
    by (unfold os_path_exists, bind, get, ret; now rewrite Hfs).
  cbn [negb]. rewrite bind_ret.
  apply bind_halt. unfold pd_read_csv, bind, get. now rewrite Hfs.
Qed.

Lemma groups_plottable_or_not key values (keys : list string) :
  Forall (fun k => numbers (group_values key values k) <> []) keys \/
  Exists (fun k => numbers (group_values key values k) = []) keys.
Proof.
  induction keys as [|k keys [IH|IH]].
  - left. constructor.
  - destruct (numbers (group_values key values k)) eqn:Hn.
    + right. now constructor.
    + left. constructor; [congruence|exact IH].
  - right. now constructor 2.
Qed.

(** Every run of [plot_results] is one of the five of [plot_run]. *)
Lemma plot_results_run fs csv_file :
  plot_run fs csv_file (plot_results csv_file fs).
Proof.
  destruct (fs !! csv_file) as [[df|]|] eqn:Hfs.
  - destruct (issubset ["cache_type"; "latency_us"] (columns df)) eqn:Hsub.
    + destruct (proj1 (required_columns df) Hsub) as [[key Hk] [values Hv]].
      destruct (groups_plottable_or_not key values (group_keys key))
        as [Hall|Hex].
      * destruct (group_keys key) as [|k0 keys] eqn:Hkeys.
        -- rewrite (plot_results_boxplot_raises fs csv_file df key values)
             by assumption.
           eapply run_boxplot_raises; eassumption.
        -- rewrite <- Hkeys in Hall.
           assert (Hne : group_keys key <> []) by (rewrite Hkeys; discriminate).
           rewrite (plot_results_prints fs csv_file df key values)
             by assumption.
           eapply run_complete; eassumption.
      * destruct (hist_loop_raises key values _ fs Hex) as [plotted Hrun].
        destruct (plot_results_hist_raises fs csv_file df key values
                    Hfs Hk Hv Hex) as [plotted' ->].
        eapply run_hist_raises; eassumption.
    + rewrite (plot_results_missing_columns fs csv_file df) by assumption.
      eapply run_missing_columns; eassumption.
  - rewrite plot_results_unreadable by assumption. now apply run_unreadable.
  - rewrite plot_results_not_found by assumption. now apply run_not_found.
Qed.

Lemma printed_tables_hists key values (keys : list string) :
  printed_tables (map (hist_of key values) keys) = [].
Proof. induction keys as [|k keys IH]; [reflexivity|exact IH]. Qed.

Lemma printed_tables_complete csv_file df key values :
  printed_tables
    (ReadCsv csv_file :: Figure 10 6 ::
       map (hist_of key values) (group_keys key) ++
       decorations df ++ [PrintTable (summary_table key values)]) =
  [summary_table key values].
Proof.
  unfold printed_tables. cbn [omap list_omap].
  change (list_omap ?f) with (omap f).
  rewrite omap_app. fold (printed_tables (map (hist_of key values) (group_keys key))).
  rewrite printed_tables_hists. reflexivity.
Qed.

Lemma printed_tables_raised csv_file key values (plotted : list string) :
  printed_tables
    (ReadCsv csv_file :: Figure 10 6 :: map (hist_of key values) plotted) = [].
Proof. apply (printed_tables_hists key values plotted). Qed.

Lemma getitem_is_Some df name :
  is_Some (getitem df name) <-> name ∈ columns df.
Proof.
  induction df as [|[n c] df IH]; cbn [columns map getitem fst].
  - split; [now intros [? ?]|intros H; inversion H].
  - fold (columns df). rewrite elem_of_cons.
    destruct (String.eqb_spec n name) as [->|Hne].
    + split; [now left|now eexists].
    + rewrite IH. split; [now right|]. intros [?|?]; congruence.
Qed.

End PlotterRuns.

(** ** The plotter: error exits *)

Section PlotterErrors.
Import Plotter.
Implicit Types (fs : gmap string node) (df : DataFrame).

(** C2.  When the path given on the command line does not exist, the
    plotter prints one diagnostic line that contains the path, exits with
    status 1, and does nothing else: the trace holds no read of a file,
    no figure and no statistics table. *)
Theorem missing_file_is_reported script csv_file extra fs :
  fs !! csv_file = None ->
  let run := main (script :: csv_file :: extra) fs in
  exit_code run = 1%Z /\
  (exists msg, trace run = [Print msg] /\ contains msg csv_file) /\
  Forall (fun e => is_read_event e = false /\ is_figure_event e = false /\
                   is_table_event e = false) (trace run).
Proof.
  intros Hfs run. subst run.
  rewrite main_calls_plot_results, (plot_results_not_found _ _ Hfs).
  split; [reflexivity|]. split.
  - eexists. split; [reflexivity|]. apply contains_intro.
  - repeat constructor.
Qed.

Lemma missing_file_is_reported_witness :
  let run := main ["plot_results.py"; "results.csv"] ∅ in
  exit_code run = 1%Z /\
  (exists msg, trace run = [Print msg] /\ contains msg "results.csv") /\
  Forall (fun e => is_read_event e = false /\ is_figure_event e = false /\
                   is_table_event e = false) (trace run).
Proof.
  apply (missing_file_is_reported "plot_results.py" "results.csv" [] ∅).
  reflexivity.
Defined.

(** C3.  When the file is read as a table that lacks [cache_type] or
    [latency_us] (or both), the plotter prints a diagnostic that names
    both required columns and exits with status 1; nothing is plotted
    and no statistics are printed. *)
Theorem missing_columns_are_reported script csv_file extra fs df :
  fs !! csv_file = Some (CsvFile df) ->
  "cache_type" ∉ columns df \/ "latency_us" ∉ columns df ->
  let run := main (script :: csv_file :: extra) fs in
  exit_code run = 1%Z /\
  (exists msg, trace run = [ReadCsv csv_file; Print msg] /\
               contains msg "cache_type" /\ contains msg "latency_us") /\
  Forall (fun e => is_figure_event e = false /\ is_table_event e = false)
         (trace run).
Proof.
  intros Hfs Hcols run. subst run.
  assert (Hsub : issubset ["cache_type"; "latency_us"] (columns df) = false).
  { apply not_true_is_false. rewrite required_columns, !getitem_is_Some.
    tauto. }
  rewrite main_calls_plot_results,
    (plot_results_missing_columns _ _ _ Hfs Hsub).
  split; [reflexivity|]. split.
  - eexists. split; [reflexivity|]. split.
    + exists "CSV missing required columns: ", ", latency_us". reflexivity.
    + exists "CSV missing required columns: cache_type, ", EmptyString.
      reflexivity.
  - repeat constructor.
Qed.

Lemma missing_columns_are_reported_witness :
  let fs : gmap string node :=
    {[ "results.csv" := CsvFile [("cache_type", [Str "LocalLRU"])] ]} in
  let run := main ["plot_results.py"; "results.csv"] fs in
  exit_code run = 1%Z /\
  (exists msg, trace run = [ReadCsv "results.csv"; Print msg] /\
               contains msg "cache_type" /\ contains msg "latency_us") /\
  Forall (fun e => is_figure_event e = false /\ is_table_event e = false)
         (trace run).
Proof.
  apply (missing_columns_are_reported "plot_results.py" "results.csv" []
           {[ "results.csv" := CsvFile [("cache_type", [Str "LocalLRU"])] ]}
           [("cache_type", [Str "LocalLRU"])]).
  - reflexivity.
  - right. apply (bool_decide_unpack _). vm_compute. exact I.
Defined.

(** C4.  Invoked with no argument after the script name, the plotter
    prints the line [Usage: python scripts/plot_results.py <results.csv>]
    and exits with status 1; no figure is produced and no statistics are
    printed. *)
Theorem no_argument_prints_usage script fs :
  let run := main [script] fs in
  exit_code run = 1%Z /\
  trace run = [Print "Usage: python scripts/plot_results.py <results.csv>"] /\
  (exists msg, trace run = [Print msg] /\ contains msg "Usage" /\
               contains msg "plot_results.py <results.csv>") /\
  Forall (fun e => is_figure_event e = false /\ is_table_event e = false)
         (trace run).
Proof.
  intros run. subst run.
  split; [reflexivity|]. split; [reflexivity|]. split.
  - eexists. split; [reflexivity|]. split.
    + exists EmptyString, ": python scripts/plot_results.py <results.csv>".
      reflexivity.
    + exists "Usage: python scripts/", EmptyString. reflexivity.
  - repeat constructor.
Qed.

End PlotterErrors.

(** ** The plotter: printed statistics *)

Section PlotterStatistics.
Import Plotter.
Implicit Types (fs : gmap string node) (df : DataFrame).
Implicit Types (key values : Series) (k : string).


Lemma elem_of_summary_table key values k s :
  (k, s) ∈ summary_table key values <->
  k ∈ group_keys key /\ s = describe (group_values key values k).
Proof.
  unfold summary_table. rewrite list_elem_of_fmap. split.
  - intros (k' & Heq & Hk'). now simplify_eq.
  - intros [Hk ->]. now exists k.
Qed.

(** A statistics table is printed only by a complete run. *)
Lemma printed_table_inv fs csv_file table :
  PrintTable table ∈ trace (plot_results csv_file fs) ->
  exists df key values,
    fs !! csv_file = Some (CsvFile df) /\
    getitem df "cache_type" = Some key /\
    getitem df "latency_us" = Some values /\
    Forall (fun k => numbers (group_values key values k) <> [])
           (group_keys key) /\
    table = summary_table key values.
Proof.
  intros Hin.
  destruct (plot_results_run fs csv_file)
    as [Hfs|Hfs|df Hfs Hsub|df key values plotted Hfs Hk Hv Hex
       |df key values Hfs Hk Hv Hnil|df key values Hfs Hk Hv Hne Hall]; cbn [trace fst snd] in Hin.
  - apply list_elem_of_singleton in Hin. discriminate.
  - inversion Hin.
  - rewrite !elem_of_cons in Hin.
    destruct Hin as [?|[?|Hin]]; try discriminate. inversion Hin.
  - rewrite !elem_of_cons, list_elem_of_fmap in Hin.
    destruct Hin as [?|[?|(k & ? & _)]]; discriminate.
  - unfold before_boxplot in Hin. rewrite !elem_of_cons in Hin.
    repeat (destruct Hin as [?|Hin]; [discriminate|]). inversion Hin.
  - exists df, key, values. repeat (split; [assumption|]).
    rewrite !elem_of_cons, !elem_of_app, list_elem_of_fmap in Hin.
    destruct Hin as [?|[?|[(k & ? & _)|[Hin|Hin]]]]; try discriminate.
    + unfold decorations in Hin. rewrite !elem_of_cons in Hin.
      repeat (destruct Hin as [?|Hin]; [discriminate|]). inversion Hin.
    + apply list_elem_of_singleton in Hin. congruence.
Qed.

(** C5.  Every row of a printed statistics table has its minimum, its
    three quartiles and its maximum in ascending order, and its count is
    the number of rows of the group whose latency is not missing. *)
Theorem printed_summaries_are_ordered fs csv_file table k s :
  PrintTable table ∈ trace (plot_results csv_file fs) ->
  (k, s) ∈ table ->
  (stat_le (minimum s) (pct25 s) /\
   stat_le (pct25 s) (pct50 s) /\
   stat_le (pct50 s) (pct75 s) /\
   stat_le (pct75 s) (maximum s)) /\
  exists df key values,
    fs !! csv_file = Some (CsvFile df) /\
    getitem df "cache_type" = Some key /\
    getitem df "latency_us" = Some values /\
    count s =
      count_rows (fun r => in_group k r && has_value r) (rows key values).
Proof.
  intros Hprinted Hks.
  destruct (printed_table_inv fs csv_file table Hprinted)
    as (df & key & values & Hfs & Hk & Hv & Hall & ->).
  apply elem_of_summary_table in Hks as [Hkey ->].
  rewrite Forall_forall in Hall. split.
  - apply describe_ordered. now apply Hall.
  - exists df, key, values. repeat (split; [assumption|]).
    cbn [describe count]. apply group_count.
Qed.

Lemma printed_summaries_are_ordered_witness :
  let fs : gmap string node := {[ "results.csv" := CsvFile example_table ]} in
  let s := describe [Num (125 # 10); Num (130 # 10)] in
  (stat_le (minimum s) (pct25 s) /\
   stat_le (pct25 s) (pct50 s) /\
   stat_le (pct50 s) (pct75 s) /\
   stat_le (pct75 s) (maximum s)) /\
  exists df key values,
    fs !! "results.csv" = Some (CsvFile df) /\
    getitem df "cache_type" = Some key /\
    getitem df "latency_us" = Some values /\
    count s =
      count_rows (fun r => in_group "LocalLRU" r && has_value r)
                 (rows key values).
Proof.
  apply (printed_summaries_are_ordered
           {[ "results.csv" := CsvFile example_table ]} "results.csv"
           [("LocalLRU", describe [Num (125 # 10); Num (130 # 10)]);
            ("LockCache", describe [Num (500 # 10)])]
           "LocalLRU").
  - apply list_elem_of_In. vm_compute.
    repeat (first [left; reflexivity | right]).
  - apply list_elem_of_In. vm_compute. left. reflexivity.
Defined.




(** C6.  For the table with rows (LocalLRU, 12.5), (LocalLRU, 13.0),
    (LockCache, 50.0) the printed statistics have exactly two rows:
    LocalLRU with count 2 and mean 12.75 (= 51/4), and LockCache with
    count 1 and mean 50. *)
Theorem example_statistics csv_file fs :
  fs !! csv_file = Some (CsvFile example_table) ->
  exists s1 s2,
    printed_tables (trace (plot_results csv_file fs)) =
      [[("LocalLRU", s1); ("LockCache", s2)]] /\
    count s1 = 2%nat /\ mean s1 = Some (51 # 4)%Q /\
    count s2 = 1%nat /\ mean s2 = Some (50 # 1)%Q.
Proof.
  intros Hfs.
  rewrite (plot_results_prints fs csv_file example_table
             [Str "LocalLRU"; Str "LocalLRU"; Str "LockCache"]
             [Num (125 # 10); Num (130 # 10); Num (500 # 10)]
             Hfs eq_refl eq_refl).
  - cbn [trace fst snd]. rewrite printed_tables_complete.
    eexists _, _. split; [vm_compute; reflexivity|].
    repeat split.
  - vm_compute. discriminate.
  - vm_compute. repeat constructor; discriminate.
Qed.

Lemma example_statistics_witness :
  let fs : gmap string node := {[ "results.csv" := CsvFile example_table ]} in
  exists s1 s2,
    printed_tables (trace (plot_results "results.csv" fs)) =
      [[("LocalLRU", s1); ("LockCache", s2)]] /\
    count s1 = 2%nat /\ mean s1 = Some (51 # 4)%Q /\
    count s2 = 1%nat /\ mean s2 = Some (50 # 1)%Q.
Proof.
  apply (example_statistics "results.csv"
           {[ "results.csv" := CsvFile example_table ]}).
  reflexivity.
Defined.

(** C7.  Two tables with the same [cache_type] column and the same
    [latency_us] column give the same printed statistics and the same
    outcome, whatever their other columns hold. *)
Theorem other_columns_are_ignored fs1 fs2 file1 file2 df1 df2 :
  fs1 !! file1 = Some (CsvFile df1) ->
  fs2 !! file2 = Some (CsvFile df2) ->
  getitem df1 "cache_type" = getitem df2 "cache_type" ->
  getitem df1 "latency_us" = getitem df2 "latency_us" ->
  printed_tables (trace (plot_results file1 fs1)) =
    printed_tables (trace (plot_results file2 fs2)) /\
  outcome (plot_results file1 fs1) = outcome (plot_results file2 fs2).
Proof.
  intros Hfs1 Hfs2 Hkey Hval.
  destruct (issubset ["cache_type"; "latency_us"] (columns df2)) eqn:Hsub2.
  - destruct (proj1 (required_columns df2) Hsub2) as [[key Hk2] [values Hv2]].
    assert (Hk1 : getitem df1 "cache_type" = Some key) by congruence.
    assert (Hv1 : getitem df1 "latency_us" = Some values) by congruence.
    destruct (groups_plottable_or_not key values (group_keys key))
      as [Hall|Hex].
    + destruct (decide (group_keys key = [])) as [Hnil|Hne].
      * rewrite (plot_results_boxplot_raises fs1 file1 df1 key values),
          (plot_results_boxplot_raises fs2 file2 df2 key values) by assumption.
        split; reflexivity.
      * rewrite (plot_results_prints fs1 file1 df1 key values),
          (plot_results_prints fs2 file2 df2 key values) by assumption.
        cbn [trace outcome fst snd]. now rewrite !printed_tables_complete.
    + destruct (plot_results_hist_raises fs1 file1 df1 key values
                  Hfs1 Hk1 Hv1 Hex) as [plotted1 ->].
      destruct (plot_results_hist_raises fs2 file2 df2 key values
                  Hfs2 Hk2 Hv2 Hex) as [plotted2 ->].
      cbn [trace outcome fst snd]. now rewrite !printed_tables_raised.
  - assert (Hsub1 : issubset ["cache_type"; "latency_us"] (columns df1) = false).
    { apply not_true_is_false. rewrite required_columns, Hkey, Hval.
      rewrite <- required_columns. congruence. }
    rewrite (plot_results_missing_columns fs1 file1 df1),
      (plot_results_missing_columns fs2 file2 df2) by assumption.
    split; reflexivity.
Qed.

Lemma other_columns_are_ignored_witness :
  let wider : DataFrame := ("thread", [Num 1; Num 2; Num 1]) :: example_table in
  let fs1 : gmap string node := {[ "a.csv" := CsvFile example_table ]} in
  let fs2 : gmap string node := {[ "b.csv" := CsvFile wider ]} in
  printed_tables (trace (plot_results "a.csv" fs1)) =
    printed_tables (trace (plot_results "b.csv" fs2)) /\
  outcome (plot_results "a.csv" fs1) = outcome (plot_results "b.csv" fs2).
Proof.
  apply (other_columns_are_ignored
           {[ "a.csv" := CsvFile example_table ]}
           {[ "b.csv" := CsvFile (("thread", [Num 1; Num 2; Num 1])
                                    :: example_table) ]}
           "a.csv" "b.csv" example_table
           (("thread", [Num 1; Num 2; Num 1]) :: example_table));
    reflexivity.
Defined.

Lemma usage_not_printed fs csv_file :
  Print usage ∉ trace (plot_results csv_file fs).
Proof.
  intros Hin.
  destruct (plot_results_run fs csv_file)
    as [Hfs|Hfs|df Hfs Hsub|df key values plotted Hfs Hk Hv Hex
       |df key values Hfs Hk Hv Hnil|df key values Hfs Hk Hv Hne Hall]; cbn [trace fst snd] in Hin.
  - apply list_elem_of_singleton in Hin. discriminate.
  - inversion Hin.
  - rewrite !elem_of_cons in Hin.
    destruct Hin as [?|[?|Hin]]; try discriminate. inversion Hin.
  - rewrite !elem_of_cons, list_elem_of_fmap in Hin.
    destruct Hin as [?|[?|(k & ? & _)]]; discriminate.
  - unfold before_boxplot in Hin. rewrite !elem_of_cons in Hin.
    repeat (destruct Hin as [?|Hin]; [discriminate|]). inversion Hin.
  - rewrite !elem_of_cons, !elem_of_app, list_elem_of_fmap in Hin.
    destruct Hin as [?|[?|[(k & ? & _)|[Hin|Hin]]]]; try discriminate.
    + unfold decorations in Hin. rewrite !elem_of_cons in Hin.
      repeat (destruct Hin as [?|Hin]; [discriminate|]). inversion Hin.
    + apply list_elem_of_singleton in Hin. discriminate.
Qed.

(** C10.  With arguments after the file name, the plotter does not
    complain: it runs [plot_results] on the first argument, the usage
    line is not printed, and the run is the one it makes with the first
    argument alone. *)
Theorem extra_arguments_are_ignored script csv_file extra fs :
  main (script :: csv_file :: extra) fs = main [script; csv_file] fs /\
  main (script :: csv_file :: extra) fs = plot_results csv_file fs /\
  Print usage ∉ trace (main (script :: csv_file :: extra) fs).
Proof.
  rewrite !main_calls_plot_results.
  split; [reflexivity|]. split; [reflexivity|]. apply usage_not_printed.
Qed.

End PlotterStatistics.

(** ** The fetcher *)

Section FetcherRuns.
Import PosixPath Fetcher.
Variable env : Env.
Variable base : string.
Implicit Types (d : Disk) (sym : string) (syms : list string).

Lemma os_makedirs_exist_ok path d :
  path ∈ dirs d \/ can_mkdir env path = true ->
  os_makedirs env path true d = (with_dir path d, [], Ok tt).
Proof.
  intros Hdir. unfold os_makedirs, with_dir, bind, get, ret, put.
  destruct (decide (path ∈ dirs d)) as [Hin|Hout]; [reflexivity|].
  destruct Hdir as [Hin | Hmk]; [contradiction|].
  rewrite Hmk. reflexivity.
Qed.

Lemma fetch_ok sym d :
  fetchable env base sym = true ->
  fetch env base sym d = (store env base d sym, [saved base sym], Ok tt).
Proof.
  unfold fetchable, fetch, store, to_csv, saved.
  destruct (yf_download env sym "5d" "1m") as [data|]; [|discriminate].
  intros Hw. cbn [or_raise]. rewrite bind_ret.
  unfold bind, get, put, emit. rewrite Hw. reflexivity.
Qed.

Lemma fetch_halts sym d :
  fetchable env base sym = false ->
  exists exn, fetch env base sym d = (d, [], Halt (Uncaught exn)).
Proof.
  unfold fetchable, fetch, to_csv.
  destruct (yf_download env sym "5d" "1m") as [data|].
  - intros Hw. exists "OSError". cbn [or_raise]. rewrite bind_ret.
    unfold bind, get, raise. rewrite Hw. reflexivity.
  - intros _. exists "DownloadError". reflexivity.
Qed.

Lemma loop_completes syms d :
  Forall (fun sym => fetchable env base sym = true) syms ->
  for_each syms (fetch env base) d =
    (stored env base syms d, map (saved base) syms, Ok tt).
Proof.
  intros Hall. revert d.
  induction Hall as [|sym syms Hsym _ IH]; intros d; [reflexivity|].
  cbn [for_each]. rewrite (bind_ok _ _ _ _ _ _ (fetch_ok sym d Hsym)).
  rewrite IH. reflexivity.
Qed.

Lemma loop_aborts pre sym post d :
  Forall (fun s => fetchable env base s = true) pre ->
  fetchable env base sym = false ->
  exists exn,
    for_each (pre ++ sym :: post) (fetch env base) d =
      (stored env base pre d, map (saved base) pre, Halt (Uncaught exn)).
Proof.
  intros Hpre Hsym. revert d.
  induction Hpre as [|s pre Hs _ IH]; intros d.
  - destruct (fetch_halts sym d Hsym) as [exn Hrun]. exists exn.
    cbn [app for_each]. now apply bind_halt.
  - destruct (IH (store env base d s)) as [exn Hrun]. exists exn.
    cbn [app for_each]. rewrite (bind_ok _ _ _ _ _ _ (fetch_ok s d Hs)).
    rewrite Hrun. reflexivity.
Qed.

Lemma stored_dirs syms d : dirs (stored env base syms d) = dirs d.
Proof.
  revert d. induction syms as [|sym syms IH]; intros d; [reflexivity|].
  cbn [stored foldl]. fold (stored env base syms (store env base d sym)).
  rewrite IH. unfold store. now destruct (yf_download env sym "5d" "1m").
Qed.

(** A path that is not the file of one of the symbols is left alone. *)
Lemma stored_other syms d path :
  path ∉ map (filepath base) syms ->
  files (stored env base syms d) !! path = files d !! path.
Proof.
  revert d. induction syms as [|sym syms IH]; intros d Hp; [reflexivity|].
  cbn [map] in Hp. apply not_elem_of_cons in Hp as [Hne Hp].
  cbn [stored foldl]. fold (stored env base syms (store env base d sym)).
  rewrite (IH _ Hp). unfold store.
  destruct (yf_download env sym "5d" "1m"); [|reflexivity].
  cbn [files]. now apply lookup_insert_ne.
Qed.

(** The file of a symbol holds what was downloaded for it. *)
Lemma stored_written syms d sym data :
  NoDup (map (filepath base) syms) ->
  sym ∈ syms ->
  yf_download env sym "5d" "1m" = Some data ->
  files (stored env base syms d) !! filepath base sym =
    Some (csv_text env data).
Proof.
  revert d. induction syms as [|s syms IH]; intros d Hnd Hin Hdl.
  - inversion Hin.
  - cbn [map] in Hnd. apply NoDup_cons in Hnd as [Hfresh Hnd].
    cbn [stored foldl]. fold (stored env base syms (store env base d s)).
    destruct (decide (filepath base sym ∈ map (filepath base) syms))
      as [Hlater|Hlast].
    + apply list_elem_of_fmap in Hlater as (s' & Heq & Hs').
      apply elem_of_cons in Hin as [-> | Hin].
      * exfalso. apply Hfresh. rewrite Heq.
        now apply list_elem_of_fmap_2.
      * now apply IH.
    + rewrite (stored_other _ _ _ Hlast).
      apply elem_of_cons in Hin as [-> | Hin].
      * unfold store. rewrite Hdl. cbn [files]. apply lookup_insert_eq.
      * exfalso. apply Hlast. now apply list_elem_of_fmap_2.
Qed.

End FetcherRuns.

Section FetcherClaims.
Import PosixPath Fetcher.
Implicit Types (env : Env) (d : Disk) (file sym : string).

(** The four files have four different paths. *)
Lemma symbol_paths_NoDup base : NoDup (map (filepath base) symbols).
Proof.
  unfold symbols, filepath, join. cbn [map fold_left].
  unfold join_step. cbn [startswith_sep String.append Ascii.eqb Bool.eqb sep].
  destruct (is_empty base || endswith_sep base);
    repeat (apply NoDup_cons; split;
            [rewrite ?not_elem_of_cons; repeat split;
             try apply not_elem_of_nil;
             intros Heq; apply String.app_inj in Heq; discriminate|]);
    apply NoDup_nil_2.
Qed.

Lemma append_cons x (a b : string) : String x a +:+ b = String x (a +:+ b).
Proof. reflexivity. Qed.

Lemma append_assoc (a b c : string) : (a +:+ b) +:+ c = a +:+ (b +:+ c).
Proof.
  induction a as [|x a IH]; [reflexivity|].
  rewrite !append_cons. f_equal. exact IH.
Qed.

Lemma endswith_sep_append (a : string) x b :
  endswith_sep (a +:+ String x b) = endswith_sep (String x b).
Proof.
  induction a as [|y a IH]; [reflexivity|].
  rewrite append_cons, <- IH.
  cbn [endswith_sep]. destruct a; reflexivity.
Qed.

Lemma is_empty_append (a : string) x b : is_empty (a +:+ String x b) = false.
Proof. now destruct a. Qed.

(** Below a script directory [dir], the path of a file is
    [dir/../data/<SYMBOL>.csv]: the data directory of the project root. *)
Lemma filepath_shape file sym :
  is_empty (dirname file) = false ->
  endswith_sep (dirname file) = false ->
  startswith_sep (sym +:+ ".csv") = false ->
  filepath (base_path file) sym =
    dirname file +:+ "/../data/" +:+ sym +:+ ".csv".
Proof.
  intros Hne Hsep Hsym. unfold filepath, base_path, join.
  cbn [fold_left]. unfold join_step at 3.
  cbn [startswith_sep Ascii.eqb Bool.eqb sep]. rewrite Hne, Hsep. cbn [orb].
  unfold join_step at 2. cbn [startswith_sep Ascii.eqb Bool.eqb sep].
  rewrite is_empty_append, endswith_sep_append. cbn [orb endswith_sep Ascii.eqb Bool.eqb sep].
  unfold join_step. rewrite Hsym, is_empty_append, endswith_sep_append.
  cbn [orb endswith_sep Ascii.eqb Bool.eqb sep].
  rewrite !append_assoc. reflexivity.
Qed.

Lemma has_sep_append (b name : string) :
  has_sep (b +:+ name) = has_sep b || has_sep name.
Proof.
  induction b as [|c b IH]; [reflexivity|].
  rewrite append_cons. cbn [has_sep]. rewrite IH. apply orb_assoc.
Qed.

Lemma no_sep_startswith (name : string) : has_sep name = false -> startswith_sep name = false.
Proof.
  destruct name as [|c name]; [reflexivity|]. cbn [has_sep startswith_sep].
  now intros [? _]%orb_false_iff.
Qed.

Lemma head_without_sep (name : string) : has_sep name = false -> head_to_last_sep name = "".
Proof. destruct name as [|c name]; [reflexivity|]. cbn [head_to_last_sep]. now intros ->. Qed.

(** The head of [b/name] is [b/]. *)
Lemma head_to_last_sep_append (b name : string) :
  has_sep name = false ->
  head_to_last_sep (b +:+ String sep name) = b +:+ String sep "".
Proof.
  intros Hname. induction b as [|c b IH].
  - change ("" +:+ String sep name) with (String sep name).
    cbn [head_to_last_sep has_sep]. change (Ascii.eqb sep sep) with true.
    cbn [orb]. now rewrite head_without_sep.
  - rewrite !append_cons. cbn [head_to_last_sep].
    replace (has_sep (String c (b +:+ String sep name))) with true.
    + now rewrite IH.
    + cbn [has_sep]. rewrite has_sep_append. cbn [has_sep].
      change (Ascii.eqb sep sep) with true. cbn [orb].
      now rewrite !orb_true_r.
Qed.

Lemma rstrip_sep_append (b : string) : rstrip_sep (b +:+ String sep "") = rstrip_sep b.
Proof.
  induction b as [|c b IH]; [reflexivity|].
  rewrite append_cons. cbn [rstrip_sep]. now rewrite IH.
Qed.

Lemma rstrip_sep_id (b : string) : endswith_sep b = false -> rstrip_sep b = b.
Proof.
  induction b as [|c b IH]; [reflexivity|]. cbn [endswith_sep rstrip_sep].
  destruct b as [|c' b].
  - intros ->. reflexivity.
  - intros Hb. rewrite (IH Hb). reflexivity.
Qed.

(** [dirname] undoes [join] with a plain file name. *)
Lemma dirname_join (b name : string) :
  is_empty b = false -> endswith_sep b = false -> has_sep name = false ->
  join b [name] = b +:+ String sep name /\ dirname (join b [name]) = b.
Proof.
  intros Hne Hend Hname.
  assert (Hjoin : join b [name] = b +:+ String sep name).
  { unfold join. cbn [fold_left]. unfold join_step.
    now rewrite (no_sep_startswith name Hname), Hne, Hend. }
  split; [exact Hjoin|]. rewrite Hjoin. unfold dirname.
  rewrite (head_to_last_sep_append b name Hname), rstrip_sep_append.
  rewrite (rstrip_sep_id b Hend). now rewrite Hne.
Qed.

(** The paths of a script at [dir/name]. *)
Lemma script_paths (dir name sym : string) :
  is_empty dir = false -> endswith_sep dir = false ->
  has_sep name = false -> has_sep sym = false ->
  base_path (dir +:+ String sep name) = dir +:+ "/../data" /\
  filepath (base_path (dir +:+ String sep name)) sym =
    dir +:+ "/../data/" +:+ sym +:+ ".csv".
Proof.
  intros Hne Hend Hname Hsym.
  destruct (dirname_join dir name Hne Hend Hname) as [Hjoin Hdir].
  rewrite Hjoin in Hdir. split.
  - unfold base_path. rewrite Hdir. unfold join. cbn [fold_left].
    unfold join_step at 2. cbn [startswith_sep Ascii.eqb Bool.eqb sep].
    rewrite Hne, Hend. cbn [orb].
    unfold join_step. cbn [startswith_sep Ascii.eqb Bool.eqb sep].
    rewrite is_empty_append, endswith_sep_append.
    cbn [orb endswith_sep Ascii.eqb Bool.eqb sep].
    now rewrite append_assoc.
  - rewrite (filepath_shape (dir +:+ String sep name) sym);
      rewrite ?Hdir; try assumption; [reflexivity|].
    apply no_sep_startswith. now rewrite has_sep_append, Hsym.
Qed.

Lemma files_with_dir path d : files (with_dir path d) = files d.
Proof. unfold with_dir. now destruct (decide (path ∈ dirs d)). Qed.

Lemma dirs_with_dir path d : path ∈ dirs (with_dir path d).
Proof.
  unfold with_dir. destruct (decide (path ∈ dirs d)); [assumption|].
  cbn [dirs]. set_solver.
Qed.

Lemma fetchable_true env base sym data :
  yf_download env sym "5d" "1m" = Some data ->
  can_write env (filepath base sym) = true ->
  fetchable env base sym = true.
Proof. unfold fetchable. now intros -> ->. Qed.

Lemma fetchable_false env base sym :
  yf_download env sym "5d" "1m" = None \/
  can_write env (filepath base sym) = false ->
  fetchable env base sym = false.
Proof.
  unfold fetchable. intros [Hd | Hw]; [now rewrite Hd|].
  rewrite Hw. now destruct (yf_download env sym "5d" "1m").
Qed.

(** C8.  For a script at [dir/name], when every download returns and
    every file can be written, the fetcher handles AAPL, MSFT, GOOG, TSLA
    in this order: it ends normally, prints exactly the four lines
    [Saved dir/../data/<SYMBOL>.csv] in that order, and leaves at each of
    these paths the text of what was downloaded for the symbol, whatever
    was there before.  The directory [dir/../data] is in place afterwards:
    it may exist beforehand, otherwise it is created. *)
Theorem fetcher_saves_every_symbol env (dir name : string) d
    (data : string -> PriceFrame env) :
  is_empty dir = false -> endswith_sep dir = false -> has_sep name = false ->
  (forall sym, sym ∈ symbols ->
     yf_download env sym "5d" "1m" = Some (data sym) /\
     can_write env (dir +:+ "/../data/" +:+ sym +:+ ".csv") = true) ->
  (dir +:+ "/../data") ∈ dirs d \/ can_mkdir env (dir +:+ "/../data") = true ->
  let run := script env (dir +:+ "/" +:+ name) d in
  outcome run = Ok tt /\
  trace run =
    [Print ("Saved " +:+ dir +:+ "/../data/AAPL.csv");
     Print ("Saved " +:+ dir +:+ "/../data/MSFT.csv");
     Print ("Saved " +:+ dir +:+ "/../data/GOOG.csv");
     Print ("Saved " +:+ dir +:+ "/../data/TSLA.csv")] /\
  (forall sym, sym ∈ symbols ->
     files (final run) !! (dir +:+ "/../data/" +:+ sym +:+ ".csv") =
       Some (csv_text env (data sym))) /\
  (dir +:+ "/../data") ∈ dirs (final run).
Proof.
  intros Hne Hend Hname Hok Hdir run. subst run.
  change (dir +:+ "/" +:+ name) with (dir +:+ String sep name).
  set (file := dir +:+ String sep name).
  assert (Hbase : base_path file = dir +:+ "/../data").
  { apply (script_paths dir name "AAPL"); [assumption..|reflexivity]. }
  assert (Hpath : forall sym, sym ∈ symbols ->
            filepath (base_path file) sym = dir +:+ "/../data/" +:+ sym +:+ ".csv").
  { intros sym Hsym. apply (script_paths dir name sym); try assumption.
    unfold symbols in Hsym. rewrite !elem_of_cons in Hsym.
    destruct Hsym as [-> | [-> | [-> | [-> | Hsym]]]];
      [reflexivity..|inversion Hsym]. }
  assert (Hall : Forall (fun sym => fetchable env (base_path file) sym = true)
                        symbols).
  { apply Forall_forall. intros sym Hsym.
    destruct (Hok sym Hsym) as [Hd Hw].
    apply (fetchable_true _ _ _ _ Hd). now rewrite (Hpath sym Hsym). }
  rewrite <- Hbase in Hdir |- *. unfold script.
  rewrite (bind_pure_state (os_makedirs env (base_path file) true) _ d
             (with_dir (base_path file) d) tt
             (os_makedirs_exist_ok env (base_path file) d Hdir)).
  rewrite (loop_completes env (base_path file) symbols _ Hall).
  cbn [outcome trace final fst snd].
  split; [reflexivity|]. split; [|split].
  - unfold symbols at 1. cbn [map]. unfold saved.
    rewrite !Hpath by (apply list_elem_of_In; simpl; tauto).
    reflexivity.
  - intros sym Hsym. destruct (Hok sym Hsym) as [Hd _].
    rewrite <- (Hpath sym Hsym).
    apply stored_written; [apply symbol_paths_NoDup|exact Hsym|exact Hd].
  - rewrite stored_dirs. apply dirs_with_dir.
Qed.

Lemma fetcher_saves_every_symbol_witness :
  let dir := "/home/user/LocalLru/scripts" in
  let run := script env_all (dir +:+ "/" +:+ "fetch_data.py") empty_disk in
  outcome run = Ok tt /\
  trace run =
    [Print ("Saved " +:+ dir +:+ "/../data/AAPL.csv");
     Print ("Saved " +:+ dir +:+ "/../data/MSFT.csv");
     Print ("Saved " +:+ dir +:+ "/../data/GOOG.csv");
     Print ("Saved " +:+ dir +:+ "/../data/TSLA.csv")] /\
  (forall sym, sym ∈ symbols ->
     files (final run) !! (dir +:+ "/../data/" +:+ sym +:+ ".csv") =
       Some ("prices of " +:+ sym)) /\
  (dir +:+ "/../data") ∈ dirs (final run).
Proof.
  apply (fetcher_saves_every_symbol env_all
           "/home/user/LocalLru/scripts" "fetch_data.py" empty_disk
           (fun sym => "prices of " +:+ sym)).
  - reflexivity.
  - reflexivity.
  - reflexivity.
  - intros sym _. split; reflexivity.
  - right. reflexivity.
Defined.

(** C9.  When the download or the write of one symbol raises, the run
    stops there with an uncaught exception: the lines of the symbols
    before it have been printed and their files written, and nothing is
    printed or written for that symbol and the symbols after it. *)
Theorem fetcher_aborts_at_first_failure env file d pre sym post
    (data : string -> PriceFrame env) :
  let base := base_path file in
  symbols = pre ++ sym :: post ->
  base ∈ dirs d \/ can_mkdir env base = true ->
  (forall s, s ∈ pre ->
     yf_download env s "5d" "1m" = Some (data s) /\
     can_write env (filepath base s) = true) ->
  yf_download env sym "5d" "1m" = None \/
    can_write env (filepath base sym) = false ->
  let run := script env file d in
  (exists exn, outcome run = Halt (Uncaught exn)) /\
  exit_code run = 1%Z /\
  trace run = map (fun s => Print ("Saved " +:+ filepath base s)) pre /\
  (forall s, s ∈ pre ->
     files (final run) !! filepath base s = Some (csv_text env (data s))) /\
  (forall s, s ∈ sym :: post ->
     files (final run) !! filepath base s = files d !! filepath base s).
Proof.
  intros base Hsplit Hdir Hpre Hsym run. subst run. unfold script. fold base.
  assert (Hall : Forall (fun s => fetchable env base s = true) pre).
  { apply Forall_forall. intros s Hs.
    destruct (Hpre s Hs) as [Hd Hw]. now apply (fetchable_true _ _ _ _ Hd). }
  pose proof (symbol_paths_NoDup base) as Hnd.
  rewrite Hsplit in Hnd |- *. rewrite fmap_app in Hnd.
  apply NoDup_app in Hnd as (Hnd_pre & Hdisj & _).
  destruct (loop_aborts env base pre sym post (with_dir base d) Hall
              (fetchable_false _ _ _ Hsym)) as [exn Hrun].
  rewrite (bind_pure_state (os_makedirs env base true) _ d (with_dir base d) tt
             (os_makedirs_exist_ok env base d Hdir)).
  rewrite Hrun. cbn [outcome trace final exit_code fst snd].
  split; [now exists exn|]. split; [reflexivity|]. split; [reflexivity|].
  split.
  - intros s Hs. destruct (Hpre s Hs) as [Hd _].
    now apply stored_written.
  - intros s Hs. rewrite stored_other, files_with_dir; [reflexivity|].
    intros Hin. apply (Hdisj _ Hin). now apply list_elem_of_fmap_2.
Qed.

Lemma fetcher_aborts_at_first_failure_witness :
  let file := "/home/user/LocalLru/scripts/fetch_data.py" in
  let base := base_path file in
  let run := script env_without_msft file empty_disk in
  (exists exn, outcome run = Halt (Uncaught exn)) /\
  exit_code run = 1%Z /\
  trace run = map (fun s => Print ("Saved " +:+ filepath base s)) ["AAPL"] /\
  (forall s, s ∈ ["AAPL"] ->
     files (final run) !! filepath base s = Some ("prices of " +:+ s)) /\
  (forall s, s ∈ ["MSFT"; "GOOG"; "TSLA"] ->
     files (final run) !! filepath base s =
     files empty_disk !! filepath base s).
Proof.
  apply (fetcher_aborts_at_first_failure env_without_msft
           "/home/user/LocalLru/scripts/fetch_data.py" empty_disk
           ["AAPL"] "MSFT" ["GOOG"; "TSLA"]
           (fun sym => "prices of " +:+ sym)).
  - reflexivity.
  - right. reflexivity.
  - intros s Hs. apply list_elem_of_In in Hs. simpl in Hs.
    destruct Hs as [<- | []]. split; reflexivity.
  - left. reflexivity.
Defined.

End FetcherClaims.

(** ** More on the plotter *)

Section PlotterOutcomes.
Import Plotter.
Implicit Types (fs : gmap string node) (df : DataFrame).
Implicit Types (key values : Series) (k : string).

(** Either the argument is missing, or [main] is [plot_results] on the
    first argument. *)
Lemma main_run argv fs :
  main argv fs = (fs, [Print usage], Halt (SysExit 1)) \/
  exists script csv_file extra,
    argv = script :: csv_file :: extra /\
    main argv fs = plot_results csv_file fs.
Proof.
  destruct argv as [|script [|csv_file extra]]; [left; reflexivity..|].
  right. exists script, csv_file, extra. split; [reflexivity|].
  apply main_calls_plot_results.
Qed.

Lemma shown_app (t1 t2 : list event) : shown (t1 ++ t2) = (shown t1 + shown t2)%nat.
Proof. unfold shown. now rewrite List.filter_app, length_app. Qed.

Lemma shown_hists key values (keys : list string) :
  shown (map (hist_of key values) keys) = 0%nat.
Proof. induction keys as [|k keys IH]; [reflexivity|exact IH]. Qed.

Lemma shown_complete csv_file df key values :
  shown (ReadCsv csv_file :: Figure 10 6 ::
           map (hist_of key values) (group_keys key) ++
           decorations df ++ [PrintTable (summary_table key values)]) = 2%nat.
Proof.
  change (shown (map (hist_of key values) (group_keys key) ++
                 decorations df ++ [PrintTable (summary_table key values)])
          = 2%nat).
  now rewrite !shown_app, shown_hists.
Qed.

(** X1.  The exit status of the plotter is 0 or 1, and it is 0 exactly
    when the statistics table was printed. *)
Theorem exit_status_tells_statistics argv fs :
  let run := main argv fs in
  (exit_code run = 0%Z \/ exit_code run = 1%Z) /\
  (exit_code run = 0%Z <-> exists table, printed_tables (trace run) = [table]).
Proof.
  intros run. subst run.
  destruct (main_run argv fs) as [-> | (script & csv_file & extra & _ & ->)].
  { split; [now right|]. split; [discriminate|]. now intros [table ?]. }
  destruct (plot_results_run fs csv_file)
    as [Hfs|Hfs|df Hfs Hsub|df key values plotted Hfs Hk Hv Hex
       |df key values Hfs Hk Hv Hnil|df key values Hfs Hk Hv Hne Hall];
    cbn [exit_code outcome trace fst snd].
  1-3: split; [now right|]; split; [discriminate|]; now intros [table ?].
  - split; [now right|]. split; [discriminate|].
    rewrite printed_tables_raised. now intros [table ?].
  - split; [now right|]. split; [discriminate|]. now intros [table ?].
  - split; [now left|]. split; [|reflexivity].
    intros _. eexists. apply printed_tables_complete.
Qed.

(** X2.  A run that ends with status 0 has called [plt.show()] exactly
    twice; a run that ends otherwise has called it at most once; and a run
    that ends by one of the script's own [sys.exit] calls has not drawn
    or shown anything. *)
Theorem show_calls_by_outcome argv fs :
  let run := main argv fs in
  (exit_code run = 0%Z -> shown (trace run) = 2%nat) /\
  (exit_code run <> 0%Z -> (shown (trace run) <= 1)%nat) /\
  (forall code, outcome run = Halt (SysExit code) ->
     Forall (fun e => is_figure_event e = false) (trace run)).
Proof.
  intros run. subst run.
  destruct (main_run argv fs) as [-> | (script & csv_file & extra & _ & ->)].
  { cbn [exit_code outcome trace fst snd]. split; [discriminate|].
    split; [intros _; cbn; lia|]. intros code _. repeat constructor. }
  destruct (plot_results_run fs csv_file)
    as [Hfs|Hfs|df Hfs Hsub|df key values plotted Hfs Hk Hv Hex
       |df key values Hfs Hk Hv Hnil|df key values Hfs Hk Hv Hne Hall];
    cbn [exit_code outcome trace fst snd].
  - split; [discriminate|]. split; [intros _; cbn; lia|].
    intros code _. repeat constructor.
  - split; [discriminate|]. split; [intros _; cbn; lia|]. discriminate.
  - split; [discriminate|]. split; [intros _; cbn; lia|].
    intros code _. repeat constructor.
  - split; [discriminate|]. split; [|discriminate].
    intros _. change (shown (map (hist_of key values) plotted) <= 1)%nat.
    rewrite shown_hists. lia.
  - split; [discriminate|]. split; [|discriminate]. intros _. cbn. lia.
  - split; [|split; [congruence|discriminate]].
    intros _. apply shown_complete.
Qed.

Lemma histograms_hists key values (keys : list string) :
  histograms (map (hist_of key values) keys) =
  map (fun k => (group_values key values k, 50%nat, (6 # 10)%Q, k)) keys.
Proof.
  induction keys as [|k keys IH]; [reflexivity|].
  cbn [map]. unfold histograms in *. unfold hist_of at 1.
  cbn [omap list_omap]. f_equal. exact IH.
Qed.

Lemma histograms_complete csv_file df key values :
  histograms (ReadCsv csv_file :: Figure 10 6 ::
                map (hist_of key values) (group_keys key) ++
                decorations df ++ [PrintTable (summary_table key values)]) =
  map (fun k => (group_values key values k, 50%nat, (6 # 10)%Q, k))
      (group_keys key).
Proof.
  change (histograms (map (hist_of key values) (group_keys key) ++
                      decorations df ++ [PrintTable (summary_table key values)])
          = map (fun k => (group_values key values k, 50%nat, (6 # 10)%Q, k))
                (group_keys key)).
  unfold histograms. rewrite omap_app.
  fold (histograms (map (hist_of key values) (group_keys key))).
  rewrite histograms_hists. cbn [decorations app omap list_omap].
  apply app_nil_r.
Qed.

(** The table a run of [main] has printed is the summary of the two
    columns of the file, and the run is the complete one. *)
Lemma main_printed_inv argv fs table :
  printed_tables (trace (main argv fs)) = [table] ->
  exists csv_file df key values,
    fs !! csv_file = Some (CsvFile df) /\
    getitem df "cache_type" = Some key /\
    getitem df "latency_us" = Some values /\
    Forall (fun k => numbers (group_values key values k) <> [])
           (group_keys key) /\
    table = summary_table key values /\
    main argv fs =
      (fs,
       ReadCsv csv_file :: Figure 10 6 ::
         map (hist_of key values) (group_keys key) ++
         decorations df ++ [PrintTable (summary_table key values)],
       Ok tt).
Proof.
  destruct (main_run argv fs) as [-> | (script & csv_file & extra & _ & ->)];
    [discriminate|].
  intros Hprinted.
  destruct (plot_results_run fs csv_file)
    as [Hfs|Hfs|df Hfs Hsub|df key values plotted Hfs Hk Hv Hex
       |df key values Hfs Hk Hv Hnil|df key values Hfs Hk Hv Hne Hall];
    cbn [trace fst snd] in Hprinted; try discriminate.
  - rewrite printed_tables_raised in Hprinted. discriminate.
  - rewrite printed_tables_complete in Hprinted.
    exists csv_file, df, key, values. repeat (split; [assumption|]).
    split; [congruence|reflexivity].
Qed.

(** X3.  When the statistics are printed, the histograms drawn before them
    and the rows of the table correspond one to one, in the same order:
    the histogram of a row has the row's label, 50 bins and opacity 0.6,
    and the row holds the statistics of exactly the data the histogram
    plots. *)
Theorem statistics_describe_the_histograms argv fs table :
  printed_tables (trace (main argv fs)) = [table] ->
  Forall2 describes (histograms (trace (main argv fs))) table.
Proof.
  intros Hprinted.
  destruct (main_printed_inv argv fs table Hprinted)
    as (csv_file & df & key & values & _ & _ & _ & _ & -> & ->).
  cbn [trace fst snd]. rewrite histograms_complete. unfold summary_table.
  induction (group_keys key) as [|k keys IH]; [constructor|].
  cbn [map]. constructor; [|exact IH]. repeat split.
Qed.

Lemma statistics_describe_the_histograms_witness :
  let fs : gmap string node := {[ "results.csv" := CsvFile example_table ]} in
  let argv := ["plot_results.py"; "results.csv"] in
  Forall2 describes (histograms (trace (main argv fs)))
    (summary_table [Str "LocalLRU"; Str "LocalLRU"; Str "LockCache"]
                   [Num (125 # 10); Num (130 # 10); Num (500 # 10)]).
Proof.
  apply (statistics_describe_the_histograms
           ["plot_results.py"; "results.csv"]
           {[ "results.csv" := CsvFile example_table ]}).
  vm_compute. reflexivity.
Defined.

Lemma hist_loop_first_gap key values (keys : list string) fs :
  Exists (fun k => numbers (group_values key values k) = []) keys ->
  exists plotted k rest,
    keys = plotted ++ k :: rest /\
    Forall (fun k => numbers (group_values key values k) <> []) plotted /\
    numbers (group_values key values k) = [] /\
    for_each keys
      (fun k => plt_hist (group_values key values k) 50 (6 # 10) k) fs =
      (fs, map (hist_of key values) plotted, Halt (Uncaught "ValueError")).
Proof.
  induction keys as [|k keys IH]; intros Hex; [inversion Hex|].
  cbn [for_each].
  destruct (numbers (group_values key values k)) as [|x xs] eqn:Hn.
  - exists [], k, keys. split; [reflexivity|]. split; [constructor|].
    split; [exact Hn|]. apply bind_halt. unfold plt_hist. now rewrite Hn.
  - assert (Hks : Exists (fun k => numbers (group_values key values k) = []) keys).
    { inversion Hex as [? ? H0|]; subst; [congruence|assumption]. }
    destruct (IH Hks) as (plotted & k' & rest & -> & Hall & Hgap & Hrun).
    exists (k :: plotted), k', rest. split; [reflexivity|].
    split; [constructor; [congruence|exact Hall]|]. split; [exact Hgap|].
    rewrite (bind_ok _ _ fs fs [hist_of key values k] tt).
    + rewrite Hrun. reflexivity.
    + unfold plt_hist. now rewrite Hn.
Qed.

(** X4.  For a table typed as the data model has it, a category without
    any latency value stops the plot: the run ends with an uncaught
    exception and status 1 before any call of [plt.show()], no statistics
    are printed, and the histograms drawn are those of a run of the
    sorted categories that ends before that category. *)
Theorem empty_category_stops_the_plot fs csv_file df key values k0 :
  fs !! csv_file = Some (CsvFile df) ->
  getitem df "cache_type" = Some key ->
  getitem df "latency_us" = Some values ->
  Forall label_or_missing key ->
  Forall number_or_missing values ->
  Str k0 ∈ key ->
  count_rows (fun r => in_group k0 r && has_value r) (rows key values) = 0%nat ->
  let run := plot_results csv_file fs in
  exit_code run = 1%Z /\
  (exists exn, outcome run = Halt (Uncaught exn)) /\
  printed_tables (trace run) = [] /\
  shown (trace run) = 0%nat /\
  exists plotted rest,
    group_keys key = plotted ++ rest /\ k0 ∈ rest /\
    map (fun h => h.2) (histograms (trace run)) = plotted.
Proof.
  intros Hfs Hk Hv _ _ Hin Hnone run. subst run.
  assert (Hgap0 : numbers (group_values key values k0) = []).
  { apply length_zero_iff_nil. now rewrite group_count. }
  assert (Hex : Exists (fun k => numbers (group_values key values k) = [])
                       (group_keys key)).
  { apply Exists_exists. exists k0. split; [|exact Hgap0].
    now apply elem_of_group_keys. }
  destruct (hist_loop_first_gap key values _ fs Hex)
    as (plotted & k & rest & Hkeys & Hall & Hgap & Hrun).
  rewrite (plot_results_loaded fs csv_file df key values Hfs Hk Hv).
  rewrite !bind_emit. rewrite (bind_halt _ _ fs fs _ _ Hrun).
  cbn [exit_code outcome trace fst snd].
  split; [reflexivity|]. split; [now eexists|].
  split; [apply printed_tables_raised|].
  split; [apply (shown_hists key values plotted)|].
  exists plotted, (k :: rest). split; [exact Hkeys|]. split.
  - assert (Hk0 : k0 ∈ group_keys key) by now apply elem_of_group_keys.
    rewrite Hkeys, elem_of_app in Hk0. destruct Hk0 as [Hk0|Hk0]; [|exact Hk0].
    rewrite Forall_forall in Hall. now destruct (Hall k0 Hk0).
  - change (map (fun h => h.2) (histograms (map (hist_of key values) plotted))
            = plotted).
    rewrite histograms_hists, map_map. cbn [snd]. apply map_id.
Qed.

Lemma empty_category_stops_the_plot_witness :
  let fs : gmap string node :=
    {[ "results.csv" := CsvFile table_without_values ]} in
  let key := [Str "LockCache"; Str "LocalLRU"; Str "NoCache"] in
  let run := plot_results "results.csv" fs in
  exit_code run = 1%Z /\
  (exists exn, outcome run = Halt (Uncaught exn)) /\
  printed_tables (trace run) = [] /\
  shown (trace run) = 0%nat /\
  exists plotted rest,
    group_keys key = plotted ++ rest /\ "LockCache" ∈ rest /\
    map (fun h => h.2) (histograms (trace run)) = plotted.
Proof.
  apply (empty_category_stops_the_plot
           {[ "results.csv" := CsvFile table_without_values ]} "results.csv"
           table_without_values
           [Str "LockCache"; Str "LocalLRU"; Str "NoCache"]
           [NA; Num (125 # 10); Num (70 # 10)] "LockCache").
  - reflexivity.
  - reflexivity.
  - reflexivity.
  - simpl. repeat constructor.
  - simpl. repeat constructor.
  - apply list_elem_of_In. simpl. tauto.
  - reflexivity.
Defined.

Lemma count_rows_cons (p : cell * cell -> bool) r rs :
  count_rows p (r :: rs) = ((if p r then 1 else 0) + count_rows p rs)%nat.
Proof. unfold count_rows. cbn [List.filter]. now destruct (p r). Qed.

Lemma sum_list_zero {A} (l : list A) : sum_list (map (fun _ => 0%nat) l) = 0%nat.
Proof. induction l as [|x l IH]; [reflexivity|exact IH]. Qed.

Lemma sum_list_plus {A} (f g : A -> nat) (l : list A) :
  sum_list (map (fun x => (f x + g x)%nat) l) =
  (sum_list (map f l) + sum_list (map g l))%nat.
Proof.
  induction l as [|x l IH]; [reflexivity|]. simpl in *.
  rewrite IH. lia.
Qed.

Lemma no_key_matches (keys : list string) s :
  s ∉ keys ->
  sum_list (map (fun k => if String.eqb s k then 1%nat else 0%nat) keys) = 0%nat.
Proof.
  induction keys as [|k keys IH]; intros Hout; [reflexivity|].
  apply not_elem_of_cons in Hout as [Hne Hout]. simpl.
  destruct (String.eqb_spec s k) as [-> | _]; [contradiction|].
  now apply IH.
Qed.

(** A label matches exactly one of the distinct keys that contain it. *)
Lemma one_key_matches (keys : list string) s :
  NoDup keys -> s ∈ keys ->
  sum_list (map (fun k => if String.eqb s k then 1%nat else 0%nat) keys) = 1%nat.
Proof.
  induction 1 as [|k keys Hfresh Hnd IH]; intros Hin; [inversion Hin|].
  simpl. destruct (String.eqb_spec s k) as [-> | Hne].
  - now rewrite no_key_matches.
  - apply elem_of_cons in Hin as [? | Hin]; [contradiction|]. now rewrite IH.
Qed.

Lemma matching_keys (keys : list string) (c : cell) (b : bool) :
  NoDup keys -> (forall k, c = Str k -> k ∈ keys) ->
  sum_list (map (fun k => if is_label k c && b then 1%nat else 0%nat) keys) =
  if match c with Str _ => true | _ => false end && b then 1%nat else 0%nat.
Proof.
  intros Hnd Hc. destruct b.
  - rewrite (map_ext _ (fun k => if is_label k c then 1%nat else 0%nat))
      by (intros k; now rewrite andb_true_r).
    rewrite andb_true_r. destruct c as [|x|s]; cbn [is_label].
    + apply sum_list_zero.
    + apply sum_list_zero.
    + apply one_key_matches; [exact Hnd|now apply Hc].
  - rewrite (map_ext _ (fun _ => 0%nat))
      by (intros k; now rewrite andb_false_r).
    rewrite andb_false_r. apply sum_list_zero.
Qed.

Lemma sum_group_counts (keys : list string) (rs : list (cell * cell)) :
  NoDup keys ->
  (forall r k, r ∈ rs -> r.1 = Str k -> k ∈ keys) ->
  sum_list (map (fun k => count_rows (fun r => in_group k r && has_value r) rs)
                keys) =
  count_rows (fun r => has_label r && has_value r) rs.
Proof.
  intros Hnd. induction rs as [|r rs IH]; intros Hkeys.
  - unfold count_rows. cbn [List.filter length]. apply sum_list_zero.
  - rewrite (map_ext _
               (fun k => ((if in_group k r && has_value r then 1 else 0) +
                          count_rows (fun r => in_group k r && has_value r) rs)%nat))
      by (intros k; apply count_rows_cons).
    rewrite sum_list_plus, IH, count_rows_cons
      by (intros r' k Hr'; apply Hkeys; now right).
    f_equal. unfold in_group, has_label.
    apply matching_keys; [exact Hnd|].
    intros k Hk. apply (Hkeys r k); [now left|exact Hk].
Qed.

(** X5.  The counts of the printed table add up to the number of rows
    that have both a category label and a latency: a row without a label
    is counted in no group. *)
Theorem counts_add_up fs csv_file df key values table :
  fs !! csv_file = Some (CsvFile df) ->
  getitem df "cache_type" = Some key ->
  getitem df "latency_us" = Some values ->
  printed_tables (trace (plot_results csv_file fs)) = [table] ->
  sum_list (map (fun row => count row.2) table) =
  count_rows (fun r => has_label r && has_value r) (rows key values).
Proof.
  intros Hfs Hk Hv Hprinted.
  destruct (decide (group_keys key = [])) as [Hnil|Hne].
  { rewrite (plot_results_boxplot_raises fs csv_file df key values
               Hfs Hk Hv Hnil) in Hprinted. discriminate. }
  destruct (groups_plottable_or_not key values (group_keys key)) as [Hall|Hex].
  - rewrite (plot_results_prints fs csv_file df key values Hfs Hk Hv Hne Hall)
      in Hprinted.
    cbn [trace fst snd] in Hprinted.
    rewrite printed_tables_complete in Hprinted.
    injection Hprinted as <-. unfold summary_table. rewrite map_map.
    cbn [snd describe count].
    rewrite (map_ext _ (fun k => count_rows (fun r => in_group k r && has_value r)
                                            (rows key values)))
      by (intros k; apply group_count).
    apply sum_group_counts; [apply group_keys_NoDup|].
    intros [c v] k Hr Hc. cbn [fst] in Hc. subst c.
    apply elem_of_group_keys. unfold rows in Hr.
    now apply elem_of_zip_l in Hr.
  - destruct (plot_results_hist_raises fs csv_file df key values Hfs Hk Hv Hex)
      as [plotted Hrun].
    rewrite Hrun in Hprinted. cbn [trace fst snd] in Hprinted.
    rewrite printed_tables_raised in Hprinted. discriminate.
Qed.

Lemma counts_add_up_witness :
  let fs : gmap string node := {[ "results.csv" := CsvFile table_with_gap ]} in
  let key := [Str "LocalLRU"; Str "LocalLRU"] in
  let values := [Num (125 # 10); NA] in
  sum_list (map (fun row => count row.2) (summary_table key values)) =
  count_rows (fun r => has_label r && has_value r) (rows key values).
Proof.
  apply (counts_add_up {[ "results.csv" := CsvFile table_with_gap ]}
           "results.csv" table_with_gap).
  - reflexivity.
  - reflexivity.
  - reflexivity.
  - vm_compute. reflexivity.
Defined.

End PlotterOutcomes.

(** ** More on the statistics *)

Section SummaryFacts.
Local Open Scope Q_scope.
Implicit Types (x y m : Q) (l : list Q).

Lemma var_is_nan l : l <> [] -> (var_of l = None <-> length l = 1%nat).
Proof.
  intros Hl. destruct l as [|x l]; [congruence|].
  unfold var_of. cbn [mean_of length]. destruct l as [|y l]; cbn [length Nat.leb].
  - split; reflexivity.
  - split; [discriminate|]. intros H. discriminate H.
Qed.

End SummaryFacts.

Section SummaryRows.
Import Plotter.
Implicit Types (fs : gmap string node) (key values : Series) (k : string).

Lemma insert_label_sorted k (l : list string) :
  StronglySorted String.le l -> StronglySorted String.le (insert_label k l).
Proof.
  induction 1 as [|k' l Hs IH Hk']; cbn [insert_label].
  - repeat constructor.
  - destruct (String.leb k k') eqn:Hle.
    + apply Is_true_true in Hle. constructor; [now constructor|].
      constructor; [exact Hle|].
      eapply Forall_impl; [exact Hk'|]. intros z Hz. cbn beta in *.
      now transitivity k'.
    + assert (Hge : String.le k' k).
      { destruct (String.le_total k k') as [Hkk|Hkk]; [|exact Hkk].
        apply Is_true_true in Hkk. unfold String.le in *. congruence. }
      constructor; [exact IH|].
      rewrite (insert_label_perm k l). now constructor.
Qed.

Lemma group_keys_sorted key : StronglySorted String.le (group_keys key).
Proof.
  unfold group_keys. induction (remove_dups (omap as_label key)) as [|k l IH];
    [constructor|].
  cbn [sort_labels foldr]. now apply insert_label_sorted.
Qed.

Lemma summary_table_names key values :
  map fst (summary_table key values) = group_keys key.
Proof.
  unfold summary_table. rewrite map_map. cbn [fst]. apply map_id.
Qed.

(** A printed row is the summary of a group that has a value. *)
Lemma printed_row_inv argv fs table k s :
  printed_tables (trace (main argv fs)) = [table] ->
  (k, s) ∈ table ->
  exists key values,
    s = describe (group_values key values k) /\
    numbers (group_values key values k) <> [].
Proof.
  intros Hprinted Hrow.
  destruct (main_printed_inv argv fs table Hprinted)
    as (csv_file & df & key & values & _ & _ & _ & Hall & -> & _).
  apply elem_of_summary_table in Hrow as [Hk ->].
  exists key, values. split; [reflexivity|].
  rewrite Forall_forall in Hall. now apply Hall.
Qed.

(** X6.  For a table whose [cache_type] cells are text labels or
    missing, the rows of the printed statistics come in ascending order
    of their labels, and no label occurs twice. *)
Theorem rows_sorted_by_label fs csv_file df key table :
  fs !! csv_file = Some (CsvFile df) ->
  getitem df "cache_type" = Some key ->
  Forall label_or_missing key ->
  printed_tables (trace (plot_results csv_file fs)) = [table] ->
  StronglySorted String.le (map fst table) /\ NoDup (map fst table).
Proof.
  intros Hfs Hk _ Hprinted.
  destruct (plot_results_run fs csv_file)
    as [Hfs'|Hfs'|df' Hfs' Hsub|df' key' values' plotted Hfs' Hk' Hv' Hex
       |df' key' values' Hfs' Hk' Hv' Hnil
       |df' key' values' Hfs' Hk' Hv' Hne Hall];
    cbn [trace fst snd] in Hprinted; try discriminate.
  - rewrite printed_tables_raised in Hprinted. discriminate.
  - rewrite printed_tables_complete in Hprinted.
    injection Hprinted as <-. rewrite summary_table_names. split.
    + apply group_keys_sorted.
    + apply group_keys_NoDup.
Qed.

Lemma rows_sorted_by_label_witness :
  let table :=
    summary_table [Str "NoCache"; Str "LockCache"; Str "LocalLRU"; Str "NoCache"]
                  [Num (70 # 10); Num (500 # 10); Num (125 # 10); Num (90 # 10)] in
  StronglySorted String.le (map fst table) /\ NoDup (map fst table).
Proof.
  apply (rows_sorted_by_label
           {[ "results.csv" := CsvFile table_without_order ]} "results.csv"
           table_without_order
           [Str "NoCache"; Str "LockCache"; Str "LocalLRU"; Str "NoCache"]).
  - reflexivity.
  - reflexivity.
  - simpl. repeat constructor.
  - vm_compute. reflexivity.
Defined.

(** X8.  Every printed row counts at least one value, and its standard
    deviation is NaN exactly when it counts a single value. *)
Theorem single_value_has_no_deviation argv fs table k s :
  printed_tables (trace (main argv fs)) = [table] ->
  (k, s) ∈ table ->
  (1 <= count s)%nat /\ (var s = None <-> count s = 1%nat).
Proof.
  intros Hprinted Hrow.
  destruct (printed_row_inv argv fs table k s Hprinted Hrow)
    as (key & values & -> & Hne).
  cbn [describe count var]. split.
  - destruct (numbers (group_values key values k)); [congruence|cbn; lia].
  - now apply var_is_nan.
Qed.

Lemma single_value_has_no_deviation_witness :
  let s := describe [Num (500 # 10)] in
  (1 <= count s)%nat /\ (var s = None <-> count s = 1%nat).
Proof.
  apply (single_value_has_no_deviation ["plot_results.py"; "results.csv"]
           {[ "results.csv" := CsvFile example_table ]}
           (summary_table [Str "LocalLRU"; Str "LocalLRU"; Str "LockCache"]
                          [Num (125 # 10); Num (130 # 10); Num (500 # 10)])
           "LockCache").
  - vm_compute. reflexivity.
  - apply list_elem_of_In. vm_compute. right. left. reflexivity.
Defined.

End SummaryRows.

Section UnlabelledRows.
Import Plotter.
Implicit Types (fs : gmap string node) (df : DataFrame).
Implicit Types (key values : Series) (k : string).

Lemma select_app {A} (m1 m2 : list bool) (x1 x2 : list A) :
  length m1 = length x1 ->
  select (m1 ++ m2) (x1 ++ x2) = select m1 x1 ++ select m2 x2.
Proof.
  revert x1. induction m1 as [|b m1 IH]; intros [|x x1] Hlen;
    try discriminate; [reflexivity|].
  cbn [app select]. rewrite IH by (cbn in Hlen; lia).
  now destruct b.
Qed.

(** Two tables with the same groups give the same statistics. *)
Lemma same_groups_same_statistics fs1 fs2 file1 file2 df1 df2
    key1 key2 values1 values2 :
  fs1 !! file1 = Some (CsvFile df1) ->
  fs2 !! file2 = Some (CsvFile df2) ->
  getitem df1 "cache_type" = Some key1 ->
  getitem df1 "latency_us" = Some values1 ->
  getitem df2 "cache_type" = Some key2 ->
  getitem df2 "latency_us" = Some values2 ->
  group_keys key1 = group_keys key2 ->
  (forall k, group_values key1 values1 k = group_values key2 values2 k) ->
  printed_tables (trace (plot_results file1 fs1)) =
    printed_tables (trace (plot_results file2 fs2)) /\
  outcome (plot_results file1 fs1) = outcome (plot_results file2 fs2).
Proof.
  intros Hfs1 Hfs2 Hk1 Hv1 Hk2 Hv2 Hkeys Hgroups.
  assert (Htable : summary_table key1 values1 = summary_table key2 values2).
  { unfold summary_table. rewrite Hkeys. apply map_ext.
    intros k. now rewrite Hgroups. }
  destruct (decide (group_keys key1 = [])) as [Hnil|Hne].
  { rewrite (plot_results_boxplot_raises fs1 file1 df1 key1 values1),
      (plot_results_boxplot_raises fs2 file2 df2 key2 values2)
      by (assumption || congruence).
    split; reflexivity. }
  destruct (groups_plottable_or_not key1 values1 (group_keys key1))
    as [Hall|Hex].
  - assert (Hne2 : group_keys key2 <> []) by congruence.
    assert (Hall2 : Forall (fun k => numbers (group_values key2 values2 k) <> [])
                           (group_keys key2)).
    { rewrite <- Hkeys. eapply Forall_impl; [exact Hall|].
      intros k Hk. now rewrite <- Hgroups. }
    rewrite (plot_results_prints fs1 file1 df1 key1 values1),
      (plot_results_prints fs2 file2 df2 key2 values2) by assumption.
    cbn [trace outcome fst snd]. now rewrite !printed_tables_complete, Htable.
  - assert (Hex2 : Exists (fun k => numbers (group_values key2 values2 k) = [])
                          (group_keys key2)).
    { rewrite <- Hkeys. eapply Exists_impl; [exact Hex|].
      intros k Hk. now rewrite <- Hgroups. }
    destruct (plot_results_hist_raises fs1 file1 df1 key1 values1
                Hfs1 Hk1 Hv1 Hex) as [plotted1 ->].
    destruct (plot_results_hist_raises fs2 file2 df2 key2 values2
                Hfs2 Hk2 Hv2 Hex2) as [plotted2 ->].
    cbn [trace outcome fst snd]. now rewrite !printed_tables_raised.
Qed.

(** X9.  In tables typed as the data model has them, a row whose
    [cache_type] is missing has no effect on the statistics: the table
    with such a row anywhere in it gives the same printed statistics and
    the same outcome as the table without it. *)
Theorem unlabelled_rows_are_dropped fs1 fs2 file1 file2 df1 df2
    (key_before key_after values_before values_after : Series) (v : cell) :
  fs1 !! file1 = Some (CsvFile df1) ->
  fs2 !! file2 = Some (CsvFile df2) ->
  getitem df1 "cache_type" = Some (key_before ++ key_after) ->
  getitem df1 "latency_us" = Some (values_before ++ values_after) ->
  getitem df2 "cache_type" = Some (key_before ++ NA :: key_after) ->
  getitem df2 "latency_us" = Some (values_before ++ v :: values_after) ->
  length key_before = length values_before ->
  Forall label_or_missing (key_before ++ key_after) ->
  Forall number_or_missing (values_before ++ values_after) ->
  number_or_missing v ->
  printed_tables (trace (plot_results file1 fs1)) =
    printed_tables (trace (plot_results file2 fs2)) /\
  outcome (plot_results file1 fs1) = outcome (plot_results file2 fs2).
Proof.
  intros Hfs1 Hfs2 Hk1 Hv1 Hk2 Hv2 Hlen _ _ _.
  apply (same_groups_same_statistics fs1 fs2 file1 file2 df1 df2
           _ _ _ _ Hfs1 Hfs2 Hk1 Hv1 Hk2 Hv2).
  - unfold group_keys. now rewrite !omap_app.
  - intros k. unfold group_values. rewrite !map_app. cbn [map is_label].
    rewrite !select_app by (now rewrite length_map). reflexivity.
Qed.

Lemma unlabelled_rows_are_dropped_witness :
  let longer : DataFrame :=
    [("cache_type", [Str "LocalLRU"; NA; Str "LocalLRU"; Str "LockCache"]);
     ("latency_us", [Num (125 # 10); Num (999 # 10); Num (130 # 10);
                     Num (500 # 10)])] in
  let fs1 : gmap string node := {[ "a.csv" := CsvFile example_table ]} in
  let fs2 : gmap string node := {[ "b.csv" := CsvFile longer ]} in
  printed_tables (trace (plot_results "a.csv" fs1)) =
    printed_tables (trace (plot_results "b.csv" fs2)) /\
  outcome (plot_results "a.csv" fs1) = outcome (plot_results "b.csv" fs2).
Proof.
  apply (unlabelled_rows_are_dropped
           {[ "a.csv" := CsvFile example_table ]}
           {[ "b.csv" :=
                CsvFile
                  [("cache_type",
                    [Str "LocalLRU"; NA; Str "LocalLRU"; Str "LockCache"]);
                   ("latency_us",
                    [Num (125 # 10); Num (999 # 10); Num (130 # 10);
                     Num (500 # 10)])] ]}
           "a.csv" "b.csv" example_table
           [("cache_type",
             [Str "LocalLRU"; NA; Str "LocalLRU"; Str "LockCache"]);
            ("latency_us",
             [Num (125 # 10); Num (999 # 10); Num (130 # 10);
              Num (500 # 10)])]
           [Str "LocalLRU"] [Str "LocalLRU"; Str "LockCache"]
           [Num (125 # 10)] [Num (130 # 10); Num (500 # 10)]
           (Num (999 # 10)));
    try reflexivity; simpl; repeat constructor.
Defined.

End UnlabelledRows.

(** ** More on the fetcher: where the files go *)

Section FetcherPaths.
Import PosixPath Fetcher.
Implicit Types (b name file sym : string).

(** [base_path] ends with the component [data]. *)
Lemma base_path_data file : exists q, base_path file = q +:+ "data".
Proof.
  unfold base_path, join. cbn [fold_left].
  set (p := join_step (dirname file) ".."). unfold join_step at 1.
  cbn [startswith_sep Ascii.eqb Bool.eqb sep].
  destruct (is_empty p || endswith_sep p).
  - now exists p.
  - exists (p +:+ "/"). now rewrite append_assoc.
Qed.

Lemma base_path_plain file :
  is_empty (base_path file) = false /\ endswith_sep (base_path file) = false.
Proof.
  destruct (base_path_data file) as [q ->]. split.
  - apply is_empty_append.
  - now rewrite endswith_sep_append.
Qed.

(** X10.  Every file is written directly inside the directory the script
    creates: the directory part of [filepath] is [base_path], for every
    symbol that has no slash in it. *)
Theorem files_are_in_the_data_directory file sym :
  has_sep sym = false ->
  dirname (filepath (base_path file) sym) = base_path file.
Proof.
  intros Hsym. destruct (base_path_plain file) as [Hne Hend].
  unfold filepath. apply dirname_join; [exact Hne|exact Hend|].
  now rewrite has_sep_append, Hsym.
Qed.

Lemma files_are_in_the_data_directory_witness :
  dirname (filepath (base_path "/home/user/LocalLru/scripts/fetch_data.py") "AAPL")
  = base_path "/home/user/LocalLru/scripts/fetch_data.py".
Proof.
  apply (files_are_in_the_data_directory
           "/home/user/LocalLru/scripts/fetch_data.py" "AAPL").
  reflexivity.
Defined.

(** X11.  For a script at [dir/name] the file of a symbol is
    [dir/../data/<SYMBOL>.csv]. *)
Theorem paths_below_script_directory dir name sym :
  is_empty dir = false -> endswith_sep dir = false ->
  has_sep name = false -> has_sep sym = false ->
  base_path (dir +:+ String sep name) = dir +:+ "/../data" /\
  filepath (base_path (dir +:+ String sep name)) sym =
    dir +:+ "/../data/" +:+ sym +:+ ".csv".
Proof.
  intros Hne Hend Hname Hsym.
  destruct (dirname_join dir name Hne Hend Hname) as [Hjoin Hdir].
  rewrite Hjoin in Hdir. split.
  - unfold base_path. rewrite Hdir. unfold join. cbn [fold_left].
    unfold join_step at 2. cbn [startswith_sep Ascii.eqb Bool.eqb sep].
    rewrite Hne, Hend. cbn [orb].
    unfold join_step. cbn [startswith_sep Ascii.eqb Bool.eqb sep].
    rewrite is_empty_append, endswith_sep_append.
    cbn [orb endswith_sep Ascii.eqb Bool.eqb sep].
    now rewrite append_assoc.
  - rewrite (filepath_shape (dir +:+ String sep name) sym);
      rewrite ?Hdir; try assumption; [reflexivity|].
    apply no_sep_startswith. now rewrite has_sep_append, Hsym.
Qed.

Lemma paths_below_script_directory_witness :
  base_path ("/home/user/LocalLru/scripts" +:+ String sep "fetch_data.py") =
    "/home/user/LocalLru/scripts" +:+ "/../data" /\
  filepath (base_path ("/home/user/LocalLru/scripts" +:+ String sep "fetch_data.py"))
           "TSLA" =
    "/home/user/LocalLru/scripts" +:+ "/../data/" +:+ "TSLA" +:+ ".csv".
Proof.
  apply (paths_below_script_directory "/home/user/LocalLru/scripts"
           "fetch_data.py" "TSLA"); reflexivity.
Defined.

(** X12.  When the script path has no directory part, the files go to
    [../data] relative to the working directory. *)
Theorem relative_script_writes_beside_cwd file sym :
  has_sep file = false -> has_sep sym = false ->
  base_path file = "../data" /\
  filepath (base_path file) sym = "../data/" +:+ sym +:+ ".csv".
Proof.
  intros Hfile Hsym.
  assert (Hbase : base_path file = "../data").
  { unfold base_path, dirname. now rewrite (head_without_sep file Hfile). }
  split; [exact Hbase|]. rewrite Hbase. unfold filepath, join.
  cbn [fold_left]. unfold join_step.
  rewrite (no_sep_startswith (sym +:+ ".csv"))
    by (now rewrite has_sep_append, Hsym).
  reflexivity.
Qed.

Lemma relative_script_writes_beside_cwd_witness :
  base_path "fetch_data.py" = "../data" /\
  filepath (base_path "fetch_data.py") "GOOG" = "../data/" +:+ "GOOG" +:+ ".csv".
Proof.
  apply (relative_script_writes_beside_cwd "fetch_data.py" "GOOG"); reflexivity.
Defined.

End FetcherPaths.

(** ** More on the fetcher: every run *)

Section FetcherEveryRun.
Import PosixPath Fetcher.
Implicit Types (env : Env) (d : Disk) (file base sym : string).
Implicit Types (syms : list string).

(** A list either passes a test everywhere or has a first element that
    fails it. *)
Lemma first_failure (p : string -> bool) syms :
  Forall (fun s => p s = true) syms \/
  exists pre sym post,
    syms = pre ++ sym :: post /\
    Forall (fun s => p s = true) pre /\ p sym = false.
Proof.
  induction syms as [|s syms IH]; [left; constructor|].
  destruct (p s) eqn:Hs.
  - destruct IH as [Hall | (pre & sym & post & -> & Hpre & Hsym)].
    + left. now constructor.
    + right. exists (s :: pre), sym, post. split; [reflexivity|].
      split; [now constructor|exact Hsym].
  - right. exists [], s, syms. split; [reflexivity|]. split; [constructor|exact Hs].
Qed.

Lemma os_makedirs_fails env path d :
  path ∉ dirs d -> can_mkdir env path = false ->
  os_makedirs env path true d = (d, [], Halt (Uncaught "OSError")).
Proof.
  intros Hout Hmk. unfold os_makedirs, bind, get, raise.
  destruct (decide (path ∈ dirs d)); [contradiction|]. now rewrite Hmk.
Qed.

(** The three ways a run of the script can go. *)
Lemma script_run env file d :
  let base := base_path file in
  ((base ∉ dirs d) /\ can_mkdir env base = false /\
   script env file d = (d, [], Halt (Uncaught "OSError"))) \/
  ((base ∈ dirs d \/ can_mkdir env base = true) /\
   Forall (fun s => fetchable env base s = true) symbols /\
   script env file d =
     (stored env base symbols (with_dir base d), map (saved base) symbols,
      Ok tt)) \/
  ((base ∈ dirs d \/ can_mkdir env base = true) /\
   exists pre sym post exn,
     symbols = pre ++ sym :: post /\
     Forall (fun s => fetchable env base s = true) pre /\
     fetchable env base sym = false /\
     script env file d =
       (stored env base pre (with_dir base d), map (saved base) pre,
        Halt (Uncaught exn))).
Proof.
  intros base. unfold script. fold base.
  destruct (decide (base ∈ dirs d)) as [Hin|Hout];
    [|destruct (can_mkdir env base) eqn:Hmk].
  3:{ left. split; [exact Hout|]. split; [reflexivity|].
      apply bind_halt. now apply os_makedirs_fails. }
  all: assert (Hdir : base ∈ dirs d \/ can_mkdir env base = true) by tauto.
  all: right.
  all: rewrite (bind_pure_state (os_makedirs env base true) _ d
                  (with_dir base d) tt (os_makedirs_exist_ok env base d Hdir)).
  all: destruct (first_failure (fetchable env base) symbols)
         as [Hall | (pre & sym & post & Hsplit & Hpre & Hsym)].
  1,3: left; split; [tauto|]; split; [exact Hall|];
       now apply loop_completes.
  all: right; split; [tauto|].
  all: destruct (loop_aborts env base pre sym post (with_dir base d) Hpre Hsym)
         as [exn Hrun].
  all: exists pre, sym, post, exn; split; [exact Hsplit|].
  all: split; [exact Hpre|]; split; [exact Hsym|].
  all: now rewrite Hsplit.
Qed.

(** X13.  The fetcher ends with status 0 exactly when the data directory
    is there or can be created and every symbol can be downloaded and
    written; otherwise the status is 1.  When the directory cannot be
    created, nothing is printed and the disk is as before. *)
Theorem fetcher_exit_status env file d :
  let base := base_path file in
  let run := script env file d in
  (exit_code run = 0%Z \/ exit_code run = 1%Z) /\
  (exit_code run = 0%Z <->
   (base ∈ dirs d \/ can_mkdir env base = true) /\
   forall sym, sym ∈ symbols -> fetchable env base sym = true) /\
  (base ∉ dirs d -> can_mkdir env base = false ->
   trace run = [] /\ final run = d).
Proof.
  intros base run. subst run base.
  destruct (script_run env file d)
    as [(Hout & Hmk & ->) | [(Hdir & Hall & ->)
       | (Hdir & pre & sym & post & exn & Hsplit & Hpre & Hsym & ->)]];
    cbn [exit_code outcome trace final fst snd].
  - split; [now right|]. split; [|now intros]. split; [discriminate|].
    intros [[Hin | Hmk'] _]; [contradiction|congruence].
  - split; [now left|]. split.
    + split; [|reflexivity]. intros _. split; [exact Hdir|].
      now apply Forall_forall.
    + intros Hout Hmk. destruct Hdir as [Hin | Hmk']; [contradiction|congruence].
  - split; [now right|]. split.
    + split; [discriminate|]. intros [_ Hall].
      assert (Hin : sym ∈ symbols)
        by (rewrite Hsplit, elem_of_app, elem_of_cons; tauto).
      rewrite (Hall sym Hin) in Hsym. discriminate.
    + intros Hout Hmk. destruct Hdir as [Hin | Hmk']; [contradiction|congruence].
Qed.

Lemma stored_keeps env base syms d path :
  is_Some (files d !! path) ->
  is_Some (files (stored env base syms d) !! path).
Proof.
  revert d. induction syms as [|s syms IH]; intros d Hsome; [exact Hsome|].
  cbn [stored foldl]. fold (stored env base syms (store env base d s)).
  apply IH. unfold store. destruct (yf_download env s "5d" "1m"); [|exact Hsome].
  cbn [files]. rewrite lookup_insert_is_Some.
  destruct (decide (filepath base s = path)); [now left|now right].
Qed.

(** X14.  Whatever happens, the fetcher removes nothing: a file that was
    on the disk is still there afterwards, and so is every directory. *)
Theorem fetcher_removes_nothing env file d :
  let run := script env file d in
  (forall path, is_Some (files d !! path) ->
                is_Some (files (final run) !! path)) /\
  dirs d ⊆ dirs (final run).
Proof.
  intros run. subst run.
  destruct (script_run env file d)
    as [(Hout & Hmk & ->) | [(Hdir & Hall & ->)
       | (Hdir & pre & sym & post & exn & Hsplit & Hpre & Hsym & ->)]];
    cbn [final fst snd].
  - split; [now intros|reflexivity].
  - split.
    + intros path Hsome. apply stored_keeps. now rewrite files_with_dir.
    + rewrite stored_dirs. unfold with_dir.
      destruct (decide (base_path file ∈ dirs d));
        [reflexivity|cbn [dirs]; apply union_subseteq_r].
  - split.
    + intros path Hsome. apply stored_keeps. now rewrite files_with_dir.
    + rewrite stored_dirs. unfold with_dir.
      destruct (decide (base_path file ∈ dirs d));
        [reflexivity|cbn [dirs]; apply union_subseteq_r].
Qed.

Lemma fetchable_download env base sym :
  fetchable env base sym = true ->
  exists data, yf_download env sym "5d" "1m" = Some data.
Proof.
  unfold fetchable. destruct (yf_download env sym "5d" "1m") as [data|];
    [now exists data|discriminate].
Qed.

Lemma saved_line_written env base pre path d :
  NoDup (map (filepath base) pre) ->
  Forall (fun s => fetchable env base s = true) pre ->
  Print ("Saved " +:+ path) ∈ map (saved base) pre ->
  exists sym data,
    sym ∈ pre /\ path = filepath base sym /\
    yf_download env sym "5d" "1m" = Some data /\
    files (stored env base pre d) !! path = Some (csv_text env data).
Proof.
  intros Hnd Hall Hin.
  apply list_elem_of_fmap in Hin as (sym & Heq & Hsym).
  unfold saved in Heq. injection Heq as Heq. apply String.app_inj in Heq.
  rewrite Forall_forall in Hall.
  destruct (fetchable_download env base sym (Hall sym Hsym)) as [data Hdata].
  exists sym, data. split; [exact Hsym|]. split; [exact Heq|].
  split; [exact Hdata|]. rewrite Heq. now apply stored_written.
Qed.

(** X15.  A line [Saved <path>] is printed only for a file that has been
    written: whenever it occurs in the output of a run, complete or
    aborted, the path is the file of one of the symbols and holds the text
    of what was downloaded for it. *)
Theorem confirmed_files_are_written env file d path :
  let base := base_path file in
  let run := script env file d in
  Print ("Saved " +:+ path) ∈ trace run ->
  exists sym data,
    sym ∈ symbols /\ path = filepath base sym /\
    yf_download env sym "5d" "1m" = Some data /\
    files (final run) !! path = Some (csv_text env data).
Proof.
  intros base run. subst run base.
  pose proof (symbol_paths_NoDup (base_path file)) as Hnd.
  destruct (script_run env file d)
    as [(Hout & Hmk & ->) | [(Hdir & Hall & ->)
       | (Hdir & pre & sym & post & exn & Hsplit & Hpre & Hsym & ->)]];
    cbn [trace final fst snd]; intros Hin.
  - inversion Hin.
  - destruct (saved_line_written env _ symbols path
                (with_dir (base_path file) d) Hnd Hall Hin)
      as (s & data & Hs & Hpath & Hdata & Hfile).
    now exists s, data.
  - rewrite Hsplit, map_app in Hnd. apply NoDup_app in Hnd as (Hnd & _ & _).
    destruct (saved_line_written env _ pre path
                (with_dir (base_path file) d) Hnd Hpre Hin)
      as (s & data & Hs & Hpath & Hdata & Hfile).
    exists s, data.
    split; [rewrite Hsplit, elem_of_app; now left|now repeat split].
Qed.

Lemma confirmed_files_are_written_witness :
  let file := "/home/user/LocalLru/scripts/fetch_data.py" in
  let base := base_path file in
  let run := script env_without_msft file empty_disk in
  exists sym data,
    sym ∈ symbols /\ filepath base "AAPL" = filepath base sym /\
    yf_download env_without_msft sym "5d" "1m" = Some data /\
    files (final run) !! filepath base "AAPL" =
      Some (csv_text env_without_msft data).
Proof.
  apply (confirmed_files_are_written env_without_msft
           "/home/user/LocalLru/scripts/fetch_data.py" empty_disk
           (filepath (base_path "/home/user/LocalLru/scripts/fetch_data.py")
                     "AAPL")).
  apply list_elem_of_In. vm_compute. left. reflexivity.
Defined.

Lemma store_id env base d sym :
  (forall data, yf_download env sym "5d" "1m" = Some data ->
     files d !! filepath base sym = Some (csv_text env data)) ->
  store env base d sym = d.
Proof.
  intros Hfile. unfold store.
  destruct (yf_download env sym "5d" "1m") as [data|]; [|reflexivity].
  rewrite insert_id by now apply Hfile. now destruct d.
Qed.

Lemma stored_id env base syms d :
  (forall sym, sym ∈ syms ->
     forall data, yf_download env sym "5d" "1m" = Some data ->
       files d !! filepath base sym = Some (csv_text env data)) ->
  stored env base syms d = d.
Proof.
  induction syms as [|s syms IH]; intros Hfiles; [reflexivity|].
  cbn [stored foldl]. rewrite store_id by (apply Hfiles; now left).
  apply IH. intros sym Hsym. apply Hfiles. now right.
Qed.

Lemma with_dir_id path d : path ∈ dirs d -> with_dir path d = d.
Proof. intros Hin. unfold with_dir. now destruct (decide (path ∈ dirs d)). Qed.

(** X16.  A successful run can be repeated: run again on the disk it
    left, with the provider answering as before, the script prints the
    same lines, ends with status 0 and leaves the disk exactly as it
    found it. *)
Theorem rerun_changes_nothing env file d :
  exit_code (script env file d) = 0%Z ->
  script env file (final (script env file d)) =
    (final (script env file d), trace (script env file d), Ok tt).
Proof.
  destruct (script_run env file d)
    as [(Hout & Hmk & ->) | [(Hdir & Hall & ->)
       | (Hdir & pre & sym & post & exn & Hsplit & Hpre & Hsym & ->)]];
    cbn [exit_code outcome trace final fst snd]; try discriminate.
  intros _.
  set (base := base_path file) in *.
  set (d1 := stored env base symbols (with_dir base d)).
  assert (Hin : base ∈ dirs d1).
  { unfold d1. rewrite stored_dirs. apply dirs_with_dir. }
  unfold script. fold base.
  rewrite (bind_pure_state (os_makedirs env base true) _ d1 (with_dir base d1) tt
             (os_makedirs_exist_ok env base d1 (or_introl Hin))).
  rewrite (loop_completes env base symbols _ Hall), (with_dir_id base d1 Hin).
  rewrite (stored_id env base symbols d1); [reflexivity|].
  intros s Hs data Hdata. unfold d1.
  apply stored_written; [apply symbol_paths_NoDup|exact Hs|exact Hdata].
Qed.

Lemma rerun_changes_nothing_witness :
  let file := "/home/user/LocalLru/scripts/fetch_data.py" in
  script env_all file (final (script env_all file empty_disk)) =
    (final (script env_all file empty_disk),
     trace (script env_all file empty_disk), Ok tt).
Proof.
  apply (rerun_changes_nothing env_all
           "/home/user/LocalLru/scripts/fetch_data.py" empty_disk).
  reflexivity.
Defined.

End FetcherEveryRun.
